(** * package-build-stats: build orchestration and missing-dependency retry

    A shallow embedding of [src/utils/build.utils.ts] (the [BuildUtils]
    object) together with the properties of its entry-point synthesizer,
    error classifier, build orchestrator and retry controller.

    Conventions of the embedding:
    - JavaScript strings are [string]s of 8-bit code units; the regular
      expressions of the source are written out as the backtracking search
      they denote (leftmost match, greedy or lazy quantifiers as written).
    - A thrown exception is the [Throw] outcome of the [M] monad; the state
      that was built up before the throw is kept, as in JavaScript.
    - Objects with identity (the externals object and its arrays) live in a
      heap of the [World]; everything else is passed by value.
    - External collaborators (the bundler, the file system write, gzip,
      the parse-time and dependency-size capabilities, the npm-name check,
      [path.join]) are the fields of the class [Collaborators]; they read
      the world and do not change it.
    - Wall-clock times and console output are left out. *)

From stdpp Require Import base option list strings gmap.
From Stdlib Require Import Ascii Permutation.

(** ** String primitives of the JavaScript runtime *)

Module Js.

Definition is_slash (c : ascii) : bool := Ascii.eqb c "/"%char.

(** The characters that [.] of a regular expression refuses (line
    terminators that fit in one code unit of this model). *)
Definition is_line_terminator (c : ascii) : bool :=
  Ascii.eqb c "010"%char || Ascii.eqb c "013"%char.

(** [strip_prefix p s] is the rest of [s] after the literal [p]. *)
Fixpoint strip_prefix (p s : string) : option string :=
  match p, s with
  | EmptyString, _ => Some s
  | String a p', String b s' =>
      if Ascii.eqb a b then strip_prefix p' s' else None
  | String _ _, EmptyString => None
  end.

(** [String.prototype.startsWith] *)
Definition startsWith (s p : string) : bool :=
  match strip_prefix p s with Some _ => true | None => false end.

(** [String.prototype.endsWith] *)
Fixpoint endsWith (s suffix : string) : bool :=
  if String.eqb s suffix then true
  else match s with
       | EmptyString => false
       | String _ s' => endsWith s' suffix
       end.

(** [String.prototype.includes] *)
Fixpoint includes (s sub : string) : bool :=
  if startsWith s sub then true
  else match s with
       | EmptyString => false
       | String _ s' => includes s' sub
       end.

(** [Array.prototype.includes] on an array of strings. *)
Definition array_includes (l : list string) (x : string) : bool :=
  existsb (String.eqb x) l.

(** [Array.prototype.join] *)
Definition join (sep : string) (l : list string) : string :=
  String.concat sep l.

(** [Array.from(new Set(l))]: the elements of [l] in the order of their
    first occurrence. *)
Definition set_add (seen : list string) (x : string) : list string :=
  if array_includes seen x then seen else seen ++ [x].

Definition array_from_set (l : list string) : list string :=
  fold_left set_add l [].

(** The longest run of characters other than [/] at the head of [s],
    and what follows it: the greedy [[^\/]*]. *)
Fixpoint span_not_slash (s : string) : string * string :=
  match s with
  | EmptyString => (EmptyString, EmptyString)
  | String c s' =>
      if is_slash c then (EmptyString, s)
      else let '(run, rest) := span_not_slash s' in (String c run, rest)
  end.

(** Greedy [(.+)] followed by the literal [lit]: the longest non-empty
    prefix of [s] free of line terminators after which [lit] occurs. *)
Fixpoint dot_plus_greedy (lit s : string) : option string :=
  match s with
  | EmptyString => None
  | String c s' =>
      if is_line_terminator c then None
      else match dot_plus_greedy lit s' with
           | Some g => Some (String c g)
           | None => if startsWith s' lit then Some (String c EmptyString)
                     else None
           end
  end.

(** [(.+)$]: the rest of the input, when it is non-empty and free of
    line terminators. *)
Fixpoint dot_plus_to_end (s : string) : option string :=
  match s with
  | EmptyString => None
  | String c s' =>
      if is_line_terminator c then None
      else match s' with
           | EmptyString => Some s
           | String _ _ =>
               match dot_plus_to_end s' with
               | Some _ => Some s
               | None => None
               end
           end
  end.

End Js.

(** ** The regular expressions of the source *)

Module Regex.
Import Js.

(** [/Can't resolve '(.+)' in/], anchored at the head of [s]. *)
Definition cant_resolve_here (s : string) : option string :=
  match strip_prefix "Can't resolve '" s with
  | Some rest => dot_plus_greedy "' in" rest
  | None => None
  end.

(** [s.match(/Can't resolve '(.+)' in/)]: capture group 1 of the
    leftmost match. *)
Fixpoint cant_resolve (s : string) : option string :=
  match cant_resolve_here s with
  | Some g => Some g
  | None => match s with
            | EmptyString => None
            | String _ s' => cant_resolve s'
            end
  end.

(** [/@[^\/]+\/[^\/]+/], anchored at the head of [s]. *)
Definition scoped_here (s : string) : option string :=
  match s with
  | String "@"%char t =>
      match span_not_slash t with
      | (String a scope, String "/"%char u) =>
          match span_not_slash u with
          | (String b pkg, _) =>
              Some (String "@"%char (String a scope) +:+ "/" +:+ String b pkg)
          | (EmptyString, _) => None
          end
      | _ => None
      end
  | _ => None
  end.

(** [s.match(/@[^\/]+\/[^\/]+/)]: the leftmost match. *)
Fixpoint scoped (s : string) : option string :=
  match scoped_here s with
  | Some m => Some m
  | None => match s with
            | EmptyString => None
            | String _ s' => scoped s'
            end
  end.

(** [s.match(/[^\/]+/)]: the first maximal run of characters other
    than [/]. *)
Fixpoint segment (s : string) : option string :=
  match s with
  | EmptyString => None
  | String c s' =>
      if is_slash c then segment s' else Some (fst (span_not_slash s))
  end.

(** Lazy [(.+?)] followed by [\.bundle\.(.+)$], anchored at the head of
    [s]: groups 1 and 2 for the shortest admissible group 1. *)
Fixpoint bundle_here (s : string) : option (string * string) :=
  match s with
  | EmptyString => None
  | String c s' =>
      if is_line_terminator c then None
      else
        match
          match strip_prefix ".bundle." s' with
          | Some rest => dot_plus_to_end rest
          | None => None
          end
        with
        | Some ext => Some (String c EmptyString, ext)
        | None =>
            match bundle_here s' with
            | Some (n, ext) => Some (String c n, ext)
            | None => None
            end
        end
  end.

(** [s.match(/(.+?)\.bundle\.(.+)$/)]: groups 1 and 2 of the leftmost
    match. *)
Fixpoint bundle (s : string) : option (string * string) :=
  match bundle_here s with
  | Some m => Some m
  | None => match s with
            | EmptyString => None
            | String _ s' => bundle s'
            end
  end.

End Regex.

(** ** Data model

    The types of [common.types] and the error classes of
    [errors/CustomError] are not among the sources: the records below
    have the fields that [build.utils.ts] reads and writes. *)

(** Modelled from the spec: [WebpackError] of [common.types], an error
    reported by the bundler. It has a [name], an [error] whose
    [toString()] is the message text, and its own [toString()]. *)
Record WebpackError := {
  we_name : string;
  we_error : string;
  we_toString : string
}.

(** What a custom error wraps as its original error. *)
Inductive ErrorPayload :=
| OfInvocationError (e : WebpackError)
| OfMessages (l : list string)
| OfIOError (message : string).

(** Modelled from the spec: the class [MissingDependencyError] of
    [errors/CustomError], which is not part of the sources. It carries the
    rendered compiler errors and the missing module names as structured
    extra data; the source reads the names both as [e.missingModules] and
    as [e.extra.missingModules]. *)
Record MissingDependency := {
  md_originalError : list string;
  md_missingModules : list string;
  md_extra_missingModules : list string
}.

(** [new MissingDependencyError(originalError, { missingModules })] *)
Definition new_MissingDependencyError
    (originalError missingModules : list string) : MissingDependency :=
  {| md_originalError := originalError;
     md_missingModules := missingModules;
     md_extra_missingModules := missingModules |}.

(** Modelled from the spec: the five error kinds of [errors/CustomError],
    each with what its constructor is given; and, with them, the two
    exceptions of the runtime that the source can run into, which makes
    the type everything that a build can throw. *)
Inductive JsError :=
| EntryPointError (originalError : ErrorPayload)
| MissingDependencyError (e : MissingDependency)
| CLIBuildError (errors : list string)
| BuildError (originalError : ErrorPayload)
| UnexpectedBuildError (message : string)
| TypeError (message : string)
| MemoryFileSystemError (path : string).

Inductive Outcome (A : Type) :=
| Ok (a : A)
| Throw (e : JsError).
Arguments Ok {A} a.
Arguments Throw {A} e.

(** [l.map(f)] for a callback that may throw: left to right, stopping at
    the first exception. *)
Fixpoint map_throwing {A B} (f : A -> Outcome B) (l : list A)
  : Outcome (list B) :=
  match l with
  | [] => Ok []
  | x :: l' =>
      match f x with
      | Throw e => Throw e
      | Ok y =>
          match map_throwing f l' with
          | Throw e => Throw e
          | Ok ys => Ok (y :: ys)
          end
      end
  end.

(** ** ErrorClassifier: [_parseMissingModules] *)

Definition is_ModuleNotFoundError (e : WebpackError) : bool :=
  String.eqb (we_name e) "ModuleNotFoundError".

(** The messages of lines 148 and 162. *)
Definition no_file_path_message : string :=
  "Expected to find a file path in the module not found error, "
  +:+ "but found none. Regex for this might be out of date.".

Definition no_package_name_message : string :=
  "Failed to resolve the missing package name. "
  +:+ "Regex for this might be out of date.".

(** The callback of [missingModuleErrors.map] (lines 143-167). *)
Definition missingModuleOf (err : WebpackError) : Outcome string :=
  match Regex.cant_resolve (we_error err) with
  | None =>
      Throw (UnexpectedBuildError no_file_path_message)
  | Some missingFilePath =>
      let packageNameMatch :=
        if Js.startsWith missingFilePath "@"
        then Regex.scoped missingFilePath
        else Regex.segment missingFilePath in
      match packageNameMatch with
      | None =>
          Throw (UnexpectedBuildError no_package_name_message)
      | Some packageName => Ok packageName
      end
  end.

(** [`${uniqueMissingModules[0]}/`]: an empty array would render
    [undefined]. *)
Definition first_with_slash (uniqueMissingModules : list string) : string :=
  match uniqueMissingModules with
  | [] => "undefined/"
  | m :: _ => m +:+ "/"
  end.

Definition _parseMissingModules (errors : list WebpackError)
  : Outcome (list string) :=
  let missingModuleErrors := List.filter is_ModuleNotFoundError errors in
  match missingModuleErrors with
  | [] => Ok []
  | _ :: _ =>
      match map_throwing missingModuleOf missingModuleErrors with
      | Throw e => Throw e
      | Ok missingModules =>
          let uniqueMissingModules := Js.array_from_set missingModules in
          Ok (List.filter
                (fun m => negb (Js.startsWith m
                                  (first_with_slash uniqueMissingModules)))
                uniqueMissingModules)
      end
  end.

(** A module-not-found error whose message cites [path]. *)
Definition module_not_found (path : string) : WebpackError :=
  {| we_name := "ModuleNotFoundError";
     we_error := "Error: Can't resolve '" +:+ path +:+ "' in '/tmp/build'";
     we_toString :=
       "ModuleNotFoundError: Module not found: Error: Can't resolve '"
       +:+ path +:+ "' in '/tmp/build'" |}.

(** ** Requests, compiler results and the world *)

(** A reference to an object with identity: its index in the heap. *)
Abbreviation loc := nat (only parsing).

(** Modelled from the spec: [Externals] of [common.types], the externals
    specification. The source reads and replaces its [externalPackages],
    a reference to an array of package names, and copies every other
    property as it is. *)
Record ExternalsObj := {
  externalPackages : loc;
  otherProps : list (string * loc)
}.

(** What the heap holds: arrays of strings and externals objects. *)
Inductive HeapCell :=
| HArray (items : list string)
| HExternals (o : ExternalsObj).

Inductive Minifier := terser | esbuild.

(** Modelled from the spec: [CreateEntryPointOptions] of [common.types];
    [customImports] and [entryFilename] are optional. *)
Record CreateEntryPointOptions := {
  esm : bool;
  ce_customImports : option (list string);
  entryFilename : option string
}.

(** Modelled from the spec: [BuildPackageOptions] of [common.types]; an
    optional flag that is missing reads as [false]. *)
Record BuildPackageOptions := {
  splitCustomImports : bool;
  customImports : option (list string);
  minifier : Minifier;
  debug : bool;
  calcParse : bool;
  includeDependencySizes : bool
}.

Record BuildPackageArgs := {
  bp_name : string;
  bp_installPath : string;
  bp_externals : loc;
  bp_options : BuildPackageOptions
}.

Record CompilePackageArgs := {
  cp_name : string;
  cp_entry : gmap string string;
  cp_externals : loc;
  cp_debug : bool;
  cp_minifier : Minifier
}.

Record Asset := {
  asset_name : string;
  asset_size : N;
  chunkNames : list string
}.

(** The part of [stats.toJson(...)] that the orchestrator reads; either
    list may be missing. *)
Record JsonStats := {
  js_errors : option (list string);
  js_assets : option (list Asset)
}.

(** A [webpack.Stats] object: [stats.compilation.errors] and the result
    of [stats.toJson(...)] with the options of lines 217-235. *)
Record Stats := {
  compilation_errors : option (list WebpackError);
  toJson : option JsonStats
}.

(** What [compilePackage] resolves to; [memoryFileSystem] is the output
    file system, read with [readFileSync]. *)
Record CompilePackageReturn := {
  stats : option Stats;
  error : option WebpackError;
  memoryFileSystem : string -> option (list Byte.byte)
}.

Definition ParseTimes := N.
Definition DependencySizes := list (string * N).

Record AssetStat := {
  as_name : string;
  as_type : string;
  as_size : N;
  as_gzip : nat;
  as_parse : option ParseTimes
}.

Record BuildResult := {
  assets : list AssetStat;
  dependencySizes : option DependencySizes
}.

(** The result of the retry controller: the build result, with the key
    [ignoredMissingDependencies] when a retry took place. *)
Record ControllerResult := {
  ignoredMissingDependencies : option (list string);
  cr_result : BuildResult
}.

Inductive TelemetryEvent :=
| TCompilePackage (name : string) (success : bool) (m : Minifier)
    (err : option WebpackError)
| TParseWebpackStats (name : string) (success : bool)
| TAssetsGZIPParseTime (name : string)
| TBuildPackage (name : string) (success : bool)
    (options : BuildPackageOptions) (buildIteration : nat)
    (missingModules : option (list string)) (err : option JsError).

(** The state a build acts on: the heap of shared objects, the files
    written to the real file system, the telemetry sink, and the record
    of every invocation of [buildPackage] and of the compiler. *)
Record World := {
  heap : list HeapCell;
  files : list (string * string);
  telemetry : list TelemetryEvent;
  buildCalls : list BuildPackageArgs;
  compileCalls : list CompilePackageArgs
}.

Definition set_heap (h : list HeapCell) (w : World) : World :=
  {| heap := h; files := files w; telemetry := telemetry w;
     buildCalls := buildCalls w; compileCalls := compileCalls w |}.

Definition set_files (f : list (string * string)) (w : World) : World :=
  {| heap := heap w; files := f; telemetry := telemetry w;
     buildCalls := buildCalls w; compileCalls := compileCalls w |}.

Definition set_telemetry (t : list TelemetryEvent) (w : World) : World :=
  {| heap := heap w; files := files w; telemetry := t;
     buildCalls := buildCalls w; compileCalls := compileCalls w |}.

Definition set_buildCalls (b : list BuildPackageArgs) (w : World) : World :=
  {| heap := heap w; files := files w; telemetry := telemetry w;
     buildCalls := b; compileCalls := compileCalls w |}.

Definition set_compileCalls (c : list CompilePackageArgs) (w : World)
  : World :=
  {| heap := heap w; files := files w; telemetry := telemetry w;
     buildCalls := buildCalls w; compileCalls := c |}.

(** ** The monad of builds: state and exceptions *)

Definition M (A : Type) : Type := World -> Outcome A * World.

Definition ret {A} (a : A) : M A := fun w => (Ok a, w).

Definition throw {A} (e : JsError) : M A := fun w => (Throw e, w).

Definition bind {A B} (m : M A) (k : A -> M B) : M B :=
  fun w =>
    match m w with
    | (Ok a, w') => k a w'
    | (Throw e, w') => (Throw e, w')
    end.

(** [try { m } catch (e) { h e }] *)
Definition try_catch {A} (m : M A) (h : JsError -> M A) : M A :=
  fun w =>
    match m w with
    | (Ok a, w') => (Ok a, w')
    | (Throw e, w') => h e w'
    end.

Definition lift {A} (o : Outcome A) : M A := fun w => (o, w).

Declare Scope build_scope.
Delimit Scope build_scope with build.
Notation "'let*' x := m 'in' k" := (bind m (fun x => k))
  (at level 10, x name, m at level 100, k at level 200) : build_scope.
Local Open Scope build_scope.

(** A call of the telemetry sink, which never fails. *)
Definition Telemetry (ev : TelemetryEvent) : M unit :=
  fun w => (Ok tt, set_telemetry (telemetry w ++ [ev]) w).

(** The record of an invocation of [buildPackage]. *)
Definition enter_buildPackage (a : BuildPackageArgs) : M unit :=
  fun w => (Ok tt, set_buildCalls (buildCalls w ++ [a]) w).

(** Allocation of a new object. *)
Definition alloc (c : HeapCell) : M loc :=
  fun w => (Ok (length (heap w)), set_heap (heap w ++ [c]) w).

(** ** The program *)

Definition newline : string := String "010"%char EmptyString.

(** The external collaborators of the build, as an interface. *)
Class Collaborators := {
  (** [path.join] and [process.cwd()] *)
  path_join : list string -> string;
  cwd : string;
  (** [fs.writeFileSync(path, content, 'utf-8')]: the error it throws, if
      the write fails. *)
  writeFileSync_error : string -> string -> option string;
  (** The bundler: what [compiler.run] hands to its callback for a
      configuration made from the arguments. It may read the world (the
      entry files, the externals object) and does not change it. *)
  webpack_run : CompilePackageArgs -> World -> CompilePackageReturn;
  (** [zlib], the parse-time and the dependency-size capabilities: they
      return. *)
  gzipSync : list Byte.byte -> list Byte.byte;
  getParseTime : list Byte.byte -> ParseTimes;
  getDependencySizes : string -> JsonStats -> Minifier -> DependencySizes;
  (** The npm-name validity check, a predicate on strings: whether
      [isValidNPMName(mod)] is truthy. *)
  isValidNPMName : string -> bool
}.

Section Build.

Context {env : Collaborators}.

(** *** EntryPointSynthesizer: [createEntryPoint] *)

(** [options.entryFilename || 'index.js'] *)
Definition entryFilename_or_default (o : CreateEntryPointOptions)
  : string :=
  match entryFilename o with
  | None => "index.js"
  | Some EmptyString => "index.js"
  | Some f => f
  end.

(** The generated source (lines 63-85). An array, empty or not, is
    truthy: only an absent [customImports] takes the [else] branches. *)
Definition importStatement (packageName : string)
    (o : CreateEntryPointOptions) : string :=
  if esm o then
    match ce_customImports o with
    | Some imports =>
        newline +:+ "          import { " +:+ Js.join ", " imports
        +:+ " } from '" +:+ packageName +:+ "'; " +:+ newline
        +:+ "          console.log(" +:+ Js.join ", " imports +:+ ")"
        +:+ newline +:+ "     "
    | None =>
        "import p from '" +:+ packageName +:+ "'; console.log(p)"
    end
  else
    match ce_customImports o with
    | Some imports =>
        newline +:+ "        const { " +:+ Js.join ", " imports
        +:+ " } = require('" +:+ packageName +:+ "'); " +:+ newline
        +:+ "        console.log(" +:+ Js.join ", " imports +:+ ")"
        +:+ newline +:+ "        "
    | None =>
        "const p = require('" +:+ packageName +:+ "'); console.log(p)"
    end.

Definition createEntryPoint (packageName installPath : string)
    (o : CreateEntryPointOptions) : M string :=
  let entryPath := path_join [installPath; entryFilename_or_default o] in
  let source := importStatement packageName o in
  fun w =>
    match writeFileSync_error entryPath source with
    | None => (Ok entryPath, set_files ((entryPath, source) :: files w) w)
    | Some err => (Throw (EntryPointError (OfIOError err)), w)
    end.

(** *** [compilePackage] *)

Definition compilePackage (a : CompilePackageArgs)
  : M CompilePackageReturn :=
  fun w =>
    let r := webpack_run a w in
    let w1 := set_compileCalls (compileCalls w ++ [a]) w in
    let ev := TCompilePackage (cp_name a)
                (match error r with Some _ => false | None => true end)
                (cp_minifier a) (error r) in
    (Ok r, set_telemetry (telemetry w1 ++ [ev]) w1).

(** *** BuildOrchestrator: [buildPackage] *)

(** [!options.customImports || !options.customImports.length] *)
Definition no_customImports (o : BuildPackageOptions) : bool :=
  match customImports o with
  | None => true
  | Some [] => true
  | Some (_ :: _) => false
  end.

(** [options.customImports.forEach(importt => { entry[importt] = ... })] *)
Fixpoint forEach_customImport (name installPath : string)
    (imports : list string) (entry : gmap string string)
  : M (gmap string string) :=
  match imports with
  | [] => ret entry
  | importt :: rest =>
      let* p := createEntryPoint name installPath
                  {| esm := true;
                     ce_customImports := Some [importt];
                     entryFilename := Some importt |} in
      forEach_customImport name installPath rest (<[importt := p]> entry)
  end.

(** Lines 183-201, after the early return: the entry map. In split mode
    the early return has taken the requests without [customImports], so
    the list is there. *)
Definition makeEntry (a : BuildPackageArgs) : M (gmap string string) :=
  let o := bp_options a in
  if splitCustomImports o then
    forEach_customImport (bp_name a) (bp_installPath a)
      (default [] (customImports o)) ∅
  else
    let* p := createEntryPoint (bp_name a) (bp_installPath a)
                {| esm := false;
                   ce_customImports := customImports o;
                   entryFilename := None |} in
    ret {["main" := p]}.

Definition compileArgs (a : BuildPackageArgs) (entry : gmap string string)
  : CompilePackageArgs :=
  {| cp_name := bp_name a;
     cp_entry := entry;
     cp_externals := bp_externals a;
     cp_debug := debug (bp_options a);
     cp_minifier := minifier (bp_options a) |}.

(** [stats.toJson({...})]: a property access on a missing [stats]
    throws a [TypeError]. *)
Definition stats_toJson (s : option Stats) : M (option JsonStats) :=
  match s with
  | None => throw (TypeError "Cannot read property 'toJson' of undefined")
  | Some st => ret (toJson st)
  end.

(** [stats.compilation.errors] *)
Definition stats_compilation_errors (s : option Stats)
  : M (option (list WebpackError)) :=
  match s with
  | None =>
      throw (TypeError "Cannot read property 'compilation' of undefined")
  | Some st => ret (compilation_errors st)
  end.

(** The message of lines 293-295. *)
Definition unrecognized_asset_message (asset : Asset) : string :=
  "Found an asset without the `.bundle` suffix. "
  +:+ "A loader customization might be needed to recognize this asset type"
  +:+ asset_name asset.

(** [getAssetStats] (lines 280-308). *)
Definition getAssetStats (o : BuildPackageOptions)
    (r : CompilePackageReturn) (asset : Asset) : Outcome AssetStat :=
  let bundle := path_join [cwd; "dist"; asset_name asset] in
  match memoryFileSystem r bundle with
  | None => Throw (MemoryFileSystemError bundle)
  | Some bundleContents =>
      let parseTimes :=
        if calcParse o then Some (getParseTime bundleContents) else None in
      let gzip := length (gzipSync bundleContents) in
      match Regex.bundle (asset_name asset) with
      | None =>
          Throw (UnexpectedBuildError (unrecognized_asset_message asset))
      | Some (entryName, extension) =>
          Ok {| as_name := entryName;
                as_type := extension;
                as_size := asset_size asset;
                as_gzip := gzip;
                as_parse := parseTimes |}
      end
  end.

(** The assets that survive the two filters of lines 312-313. *)
Definition surviving_assets (l : list Asset) : list Asset :=
  List.filter (fun asset => negb (Js.endsWith (asset_name asset) "LICENSE.txt"))
    (List.filter
       (fun asset => negb (Js.array_includes (chunkNames asset) "runtime"))
       l).

(** [missingModules.length === 1 && missingModules[0] === name] *)
Definition only_module (missingModules : list string) (name : string)
  : bool :=
  match missingModules with
  | [m] => String.eqb m name
  | _ => false
  end.

(** Lines 253-278: the failure thrown when the compilation has
    errors. *)
Definition classify (name : string) (errors : list WebpackError)
    (jsonStats : JsonStats) : M BuildResult :=
  let* missingModules := lift (_parseMissingModules errors) in
  match missingModules with
  | _ :: _ =>
      if only_module missingModules name
      then throw (EntryPointError (OfMessages (map we_toString errors)))
      else throw (MissingDependencyError
                    (new_MissingDependencyError
                       (map we_toString errors) missingModules))
  | [] =>
      match js_errors jsonStats with
      | Some (e :: es) =>
          if existsb (fun err => Js.includes err "Unexpected character '#'")
               (e :: es)
          then throw (CLIBuildError (e :: es))
          else throw (BuildError (OfMessages (e :: es)))
      | _ =>
          throw (UnexpectedBuildError
                   "The webpack stats object was unexpectedly empty")
      end
  end.

(** Lines 280-329: the report of a compilation without errors. *)
Definition report (a : BuildPackageArgs) (r : CompilePackageReturn)
    (jsonStats : JsonStats) : M BuildResult :=
  let o := bp_options a in
  let* assetStats :=
    match js_assets jsonStats with
    | None => ret None
    | Some l =>
        let* stats :=
          lift (map_throwing (getAssetStats o r) (surviving_assets l)) in
        ret (Some stats)
    end in
  let* _ := Telemetry (TAssetsGZIPParseTime (bp_name a)) in
  ret {| assets := default [] assetStats;
         dependencySizes :=
           if includeDependencySizes o
           then Some (getDependencySizes (bp_name a) jsonStats (minifier o))
           else None |}.

(** Lines 216-329: what [buildPackage] does with the compiler's
    answer. *)
Definition interpret (a : BuildPackageArgs) (r : CompilePackageReturn)
  : M BuildResult :=
  let* jsonStats := stats_toJson (stats r) in
  match jsonStats with
  | None =>
      let* _ := Telemetry (TParseWebpackStats (bp_name a) false) in
      throw (UnexpectedBuildError
               "Expected webpack json stats to be non-null, but was null")
  | Some jsonStats =>
      let* _ := Telemetry (TParseWebpackStats (bp_name a) true) in
      match error r, stats r with
      | Some err, None => throw (BuildError (OfInvocationError err))
      | _, _ =>
          let* errors := stats_compilation_errors (stats r) in
          match errors with
          | Some (e :: es) => classify (bp_name a) (e :: es) jsonStats
          | _ => report a r jsonStats
          end
      end
  end.

Definition buildPackage (a : BuildPackageArgs) : M BuildResult :=
  let* _ := enter_buildPackage a in
  if splitCustomImports (bp_options a) && no_customImports (bp_options a)
  then ret {| assets := []; dependencySizes := None |}
  else
    let* entry := makeEntry a in
    let* r := compilePackage (compileArgs a entry) in
    interpret a r.

(** *** RetryController: [buildPackageIgnoringMissingDeps] *)

(** [{ ...externals, externalPackages:
       externals.externalPackages.concat(missingModules) }]:
    a new array and a new object. *)
Definition widen_externals (externals : loc) (missingModules : list string)
  : M loc :=
  fun w =>
    match heap w !! externals with
    | Some (HExternals o) =>
        match heap w !! externalPackages o with
        | Some (HArray packages) =>
            (let* arr := alloc (HArray (packages ++ missingModules)) in
             alloc (HExternals {| externalPackages := arr;
                                  otherProps := otherProps o |})) w
        | _ =>
            (Throw (TypeError "externals.externalPackages.concat is not a function"),
             w)
        end
    | _ =>
        (Throw (TypeError "Cannot read property 'concat' of undefined"), w)
    end.

Definition with_externals (a : BuildPackageArgs) (e : loc)
  : BuildPackageArgs :=
  {| bp_name := bp_name a;
     bp_installPath := bp_installPath a;
     bp_externals := e;
     bp_options := bp_options a |}.

(** The condition of lines 355-357. *)
Definition retry_allowed (e : JsError) : option MissingDependency :=
  match e with
  | MissingDependencyError md =>
      if (length (md_missingModules md) <=? 6)
         && forallb isValidNPMName (md_missingModules md)
      then Some md else None
  | _ => None
  end.

Definition buildPackageIgnoringMissingDeps (a : BuildPackageArgs)
  : M ControllerResult :=
  try_catch
    (let* buildResult := buildPackage a in
     let* _ := Telemetry (TBuildPackage (bp_name a) true (bp_options a)
                            1 None None) in
     ret {| ignoredMissingDependencies := None;
            cr_result := buildResult |})
    (fun e =>
       let buildIteration := 2 in
       match retry_allowed e with
       | Some md =>
           let missingModules := md_extra_missingModules md in
           let* newExternals :=
             widen_externals (bp_externals a) missingModules in
           let* rebuiltResult :=
             buildPackage (with_externals a newExternals) in
           let* _ := Telemetry (TBuildPackage (bp_name a) true
                                  (bp_options a) buildIteration
                                  (Some missingModules) None) in
           ret {| ignoredMissingDependencies := Some missingModules;
                  cr_result := rebuiltResult |}
       | None =>
           let* _ := Telemetry (TBuildPackage (bp_name a) false
                                  (bp_options a) buildIteration
                                  None (Some e)) in
           throw e
       end).

End Build.

(** * Specification vocabulary *)

(** ** Strings and patterns *)

(** A string that [(.+)] can match in full: non-empty and free of line
    terminators. *)
Fixpoint one_line (s : string) : bool :=
  match s with
  | EmptyString => false
  | String c EmptyString => negb (Js.is_line_terminator c)
  | String c s' => negb (Js.is_line_terminator c) && one_line s'
  end.

(** The number of [/] in a string. *)
Fixpoint slashes (s : string) : nat :=
  match s with
  | EmptyString => 0
  | String c s' => (if Js.is_slash c then 1 else 0) + slashes s'
  end.

(** ** Missing modules *)

(** [m] is a strict sub-path of [parent]: [parent/...]. *)
Definition strict_subpath (m parent : string) : bool :=
  Js.startsWith m (parent +:+ "/").

(** The first name of a list of extracted names, as the template string
    of line 171 renders it. *)
Definition first_detected (names : list string) : string :=
  match names with [] => "undefined" | n :: _ => n end.

(** The package names extracted from the module-not-found errors, in the
    order of the errors and with repeats. *)
Definition extracted_names (errors : list WebpackError)
  : Outcome (list string) :=
  map_throwing missingModuleOf (List.filter is_ModuleNotFoundError errors).

(** The error is a module-not-found error whose message cites [path]. *)
Definition cites (path : string) (e : WebpackError) : Prop :=
  is_ModuleNotFoundError e = true
  /\ Regex.cant_resolve (we_error e) = Some path.

(** The path that the error cites, if any, does not begin with [/]. *)
Definition cites_relative_path (e : WebpackError) : bool :=
  match Regex.cant_resolve (we_error e) with
  | Some path => negb (Js.startsWith path "/")
  | None => true
  end.

(** No module-not-found error of the list cites a path that begins with
    [/]. *)
Definition relative_paths (errors : list WebpackError) : bool :=
  forallb
    (fun e => negb (is_ModuleNotFoundError e) || cites_relative_path e)
    errors.

(** The shape of a package name taken from a path that does not begin
    with [/]: [name], with no [/] and no leading [@], or [@scope/name],
    with one [/]. *)
Definition well_shaped (n : string) : Prop :=
  n <> EmptyString /\
  slashes n = if Js.startsWith n "@" then 1 else 0.

(** Two arrays hold the same set of names. *)
Definition same_elements (l l' : list string) : Prop :=
  forall m, In m l <-> In m l'.

(** ** Builds *)

(** The world once [buildPackage] has been entered with [a]. *)
Definition enters (a : BuildPackageArgs) (w : World) : World :=
  set_buildCalls (buildCalls w ++ [a]) w.

(** The call [buildPackage a] in world [w] gets as far as the compiler:
    there is no early return, every entry point is written, and the
    compiler invocation yields [r], leaving the world [w']. *)
Definition compiler_yields {env : Collaborators} (a : BuildPackageArgs)
    (w : World) (r : CompilePackageReturn) (w' : World) : Prop :=
  splitCustomImports (bp_options a) && no_customImports (bp_options a) = false
  /\ exists entry w1,
       makeEntry a (enters a w) = (Ok entry, w1)
       /\ compilePackage (compileArgs a entry) w1 = (Ok r, w').

(** The compilation has no compiler-level errors. *)
Definition no_compilation_errors (st : Stats) : Prop :=
  compilation_errors st = None \/ compilation_errors st = Some [].

(** Every asset of [l] was emitted: its bundle is in the output file
    system. *)
Definition assets_emitted {env : Collaborators} (r : CompilePackageReturn)
    (l : list Asset) : Prop :=
  forall asset, In asset l ->
    memoryFileSystem r (path_join [cwd; "dist"; asset_name asset]) <> None.

(** The objects of the heap and the record of [buildPackage] invocations
    are the same in [w'] as in [w]. *)
Definition unchanged_objects (w w' : World) : Prop :=
  heap w' = heap w /\ buildCalls w' = buildCalls w.

(** The failures that [buildPackage] can end in: a
    [MissingDependencyError] is one made by its constructor, and a
    [BuildError] never wraps an invocation error. *)
Definition possible_failure (e : JsError) : Prop :=
  match e with
  | MissingDependencyError md =>
      md_extra_missingModules md = md_missingModules md
  | BuildError (OfInvocationError _) => False
  | _ => True
  end.

(** A computation that leaves the objects alone and fails only with a
    [possible_failure]. *)
Definition disciplined {A} (m : M A) : Prop :=
  forall w, unchanged_objects w (snd (m w))
            /\ forall e, fst (m w) = Throw e -> possible_failure e.

(** The [externalPackages] list of the externals object at [e]. *)
Definition externals_list (w : World) (e : loc) : option (list string) :=
  match heap w !! e with
  | Some (HExternals o) =>
      match heap w !! externalPackages o with
      | Some (HArray packages) => Some packages
      | _ => None
      end
  | _ => None
  end.

(** ** Entry points *)

(** The binding clause of a generated entry point: the named bindings
    taken from the package, in module or in require syntax. *)
Definition destructuring (esm : bool) (imports : list string)
    (packageName : string) : string :=
  if esm
  then "import { " +:+ Js.join ", " imports +:+ " } from '"
       +:+ packageName +:+ "'"
  else "const { " +:+ Js.join ", " imports +:+ " } = require('"
       +:+ packageName +:+ "')".

(** The statement that references every named binding. *)
Definition reference_to (imports : list string) : string :=
  "console.log(" +:+ Js.join ", " imports +:+ ")".

(** The entry point that takes the default export and references it. *)
Definition default_import (esm : bool) (packageName : string) : string :=
  if esm
  then "import p from '" +:+ packageName +:+ "'; console.log(p)"
  else "const p = require('" +:+ packageName +:+ "'); console.log(p)".

(** ** Paths, failures and events *)

(** The rest of a path after a segment: nothing, or a [/] and more. *)
Definition segment_end (rest : string) : Prop :=
  rest = EmptyString \/ Js.startsWith rest "/" = true.

(** The string holds no line terminator. *)
Fixpoint no_line_terminator (s : string) : bool :=
  match s with
  | EmptyString => true
  | String c s' => negb (Js.is_line_terminator c) && no_line_terminator s'
  end.

(** The failure is one of the three that a compilation with a
    module-not-found error can end in. *)
Definition resolution_failure (e : JsError) : Prop :=
  match e with
  | EntryPointError _ | MissingDependencyError _ | UnexpectedBuildError _ =>
      True
  | _ => False
  end.

(** What a [MissingDependencyError] of a build of [name] carries: a
    non-empty list of names without repeats, other than the package
    alone, and the same list as extra data. *)
Definition proper_missing_dependency (name : string) (e : JsError) : Prop :=
  match e with
  | MissingDependencyError md =>
      md_missingModules md <> []
      /\ List.NoDup (md_missingModules md)
      /\ md_missingModules md <> [name]
      /\ md_extra_missingModules md = md_missingModules md
  | _ => True
  end.

(** The error string reports a character that the parser of the bundler
    refuses. *)
Definition mentions_unexpected_hash (message : string) : bool :=
  Js.includes message "Unexpected character '#'".

(** The computation leaves the observation [f] of the world as it is. *)
Definition preserves {A B} (f : World -> B) (m : M A) : Prop :=
  forall w, f (snd (m w)) = f w.

(** The computation fails only with errors that satisfy [P]. *)
Definition fails_with {A} (P : JsError -> Prop) (m : M A) : Prop :=
  forall w e, fst (m w) = Throw e -> P e.

(** The event is one of [Telemetry.buildPackage], the record of a build
    attempt. *)
Definition is_build_event (ev : TelemetryEvent) : bool :=
  match ev with
  | TBuildPackage _ _ _ _ _ _ => true
  | _ => false
  end.

(** The events of build attempts that the world has recorded. *)
Definition build_events (w : World) : list TelemetryEvent :=
  List.filter is_build_event (telemetry w).



(** ** Entry points and reports *)

(** The entry points that [buildPackage] synthesizes, in order: the key
    of each in the entry map and the options it is made with. *)
Definition planned_entries (a : BuildPackageArgs)
  : list (string * CreateEntryPointOptions) :=
  if splitCustomImports (bp_options a) then
    map (fun importt =>
           (importt, {| esm := true;
                        ce_customImports := Some [importt];
                        entryFilename := Some importt |}))
        (default [] (customImports (bp_options a)))
  else
    [("main", {| esm := false;
                 ce_customImports := customImports (bp_options a);
                 entryFilename := None |})].


(** The path and the source of an entry point of the request. *)
Definition entry_file {env : Collaborators} (a : BuildPackageArgs)
    (o : CreateEntryPointOptions) : string * string :=
  (path_join [bp_installPath a; entryFilename_or_default o],
   importStatement (bp_name a) o).

(** The write of the entry point succeeds. *)
Definition writable {env : Collaborators} (a : BuildPackageArgs)
    (o : CreateEntryPointOptions) : Prop :=
  writeFileSync_error (fst (entry_file a o)) (snd (entry_file a o)) = None.

(** The entry map that the planned entries make. *)
Definition entry_map {env : Collaborators} (a : BuildPackageArgs)
    (l : list (string * CreateEntryPointOptions))
    (entry : gmap string string) : gmap string string :=
  fold_left (fun m ko => <[fst ko := fst (entry_file a (snd ko))]> m) l entry.

(** The entry phase over a list of planned entries: each entry point is
    written and put into the entry map, up to the first write that
    fails. *)
Fixpoint write_entries {env : Collaborators} (a : BuildPackageArgs)
    (l : list (string * CreateEntryPointOptions))
    (entry : gmap string string) : M (gmap string string) :=
  match l with
  | [] => ret entry
  | ko :: rest =>
      let* p := createEntryPoint (bp_name a) (bp_installPath a) (snd ko) in
      write_entries a rest (<[fst ko := p]> entry)
  end.

(** The arguments of the compiler invocation are those of the request. *)
Definition compiles_request (a : BuildPackageArgs) (c : CompilePackageArgs)
  : Prop :=
  cp_name c = bp_name a
  /\ cp_externals c = bp_externals a
  /\ cp_debug c = debug (bp_options a)
  /\ cp_minifier c = minifier (bp_options a).

(** The asset stat [s] reports the asset: its size, the gzip size and
    the parse time of its bundle, and the name and type that its file
    name gives. *)
Definition reports {env : Collaborators} (o : BuildPackageOptions)
    (r : CompilePackageReturn) (asset : Asset) (s : AssetStat) : Prop :=
  as_size s = asset_size asset
  /\ Regex.bundle (asset_name asset) = Some (as_name s, as_type s)
  /\ exists contents,
       memoryFileSystem r (path_join [cwd; "dist"; asset_name asset])
       = Some contents
       /\ as_gzip s = length (gzipSync contents)
       /\ as_parse s
          = if calcParse o then Some (getParseTime contents) else None.

(** ** Sample requests and bundlers *)

Module Sample.

Definition options : BuildPackageOptions :=
  {| splitCustomImports := false;
     customImports := None;
     minifier := terser;
     debug := false;
     calcParse := false;
     includeDependencySizes := false |}.

Definition split_options : BuildPackageOptions :=
  {| splitCustomImports := true;
     customImports := Some [];
     minifier := terser;
     debug := false;
     calcParse := false;
     includeDependencySizes := false |}.

(** The caller's objects: the array [["react"]] at 0 and the externals
    object at 1. *)
Definition world : World :=
  {| heap := [HArray ["react"];
              HExternals {| externalPackages := 0; otherProps := [] |}];
     files := [];
     telemetry := [];
     buildCalls := [];
     compileCalls := [] |}.

Definition request : BuildPackageArgs :=
  {| bp_name := "foo";
     bp_installPath := "/tmp/foo";
     bp_externals := 1;
     bp_options := options |}.

Definition split_request : BuildPackageArgs :=
  {| bp_name := "foo";
     bp_installPath := "/tmp/foo";
     bp_externals := 1;
     bp_options := split_options |}.

Definition bundle_bytes : list Byte.byte := [Byte.x61; Byte.x3b].

(** An output file system that holds the named files of [/app/dist]. *)
Definition output (names : list string) (path : string)
  : option (list Byte.byte) :=
  if existsb (fun n => String.eqb path ("/app/dist/" +:+ n)) names
  then Some bundle_bytes else None.

Definition asset (name : string) : Asset :=
  {| asset_name := name; asset_size := 2%N; chunkNames := ["main"] |}.

Definition compiled (st : Stats) (names : list string)
  : CompilePackageReturn :=
  {| stats := Some st; error := None; memoryFileSystem := output names |}.

Definition succeeded_stats (l : option (list Asset)) : Stats :=
  {| compilation_errors := Some [];
     toJson := Some {| js_errors := Some []; js_assets := l |} |}.

Definition failed_stats (errors : list WebpackError) : Stats :=
  {| compilation_errors := Some errors;
     toJson := Some {| js_errors := Some (map we_toString errors);
                       js_assets := Some [] |} |}.

Definition invocation_error : WebpackError :=
  {| we_name := "Error";
     we_error := "Error: invalid configuration";
     we_toString := "Error: invalid configuration" |}.

(** The bundler could not run: an error and no stats. *)
Definition crashed : CompilePackageReturn :=
  {| stats := None;
     error := Some invocation_error;
     memoryFileSystem := fun _ => None |}.

(** A stand-in for the npm-name check. *)
Definition valid_name (s : string) : bool :=
  negb (String.eqb s EmptyString) && negb (Js.includes s " ").

Definition collaborators
    (run : CompilePackageArgs -> World -> CompilePackageReturn)
  : Collaborators :=
  {| path_join := Js.join "/";
     cwd := "/app";
     writeFileSync_error := fun _ _ => None;
     webpack_run := run;
     gzipSync := fun bytes => bytes;
     getParseTime := fun bytes => N.of_nat (length bytes);
     getDependencySizes := fun _ _ _ => [];
     isValidNPMName := valid_name |}.

Definition always (r : CompilePackageReturn)
  : CompilePackageArgs -> World -> CompilePackageReturn :=
  fun _ _ => r.

(** A bundler that resolves everything but [missing], which it accepts
    only as externals. *)
Definition needs (missing : list string) (a : CompilePackageArgs)
    (w : World) : CompilePackageReturn :=
  let external :=
    match externals_list w (cp_externals a) with
    | Some packages => packages
    | None => []
    end in
  match List.filter (fun m => negb (Js.array_includes external m)) missing with
  | [] => compiled (succeeded_stats (Some [asset "main.bundle.js"]))
            ["main.bundle.js"]
  | unresolved => compiled (failed_stats (map module_not_found unresolved)) []
  end.

Definition seven : list string := ["a"; "b"; "c"; "d"; "e"; "f"; "g"].

(** The collaborators of the sample builds. *)
Definition bundler_crashes : Collaborators :=
  collaborators (always crashed).

Definition bar_is_missing : Collaborators :=
  collaborators (needs ["bar"]).

Definition bar_never_resolves : Collaborators :=
  collaborators
    (always (compiled (failed_stats [module_not_found "bar"]) [])).

Definition seven_are_missing : Collaborators :=
  collaborators (needs seven).

(** A compilation that also emitted [stats.json]. *)
Definition with_stats_json : CompilePackageReturn :=
  compiled
    (succeeded_stats (Some [asset "main.bundle.js"; asset "stats.json"]))
    ["main.bundle.js"; "stats.json"].

(** A compilation whose summary has no assets list. *)
Definition without_assets_list : CompilePackageReturn :=
  compiled (succeeded_stats None) [].

Definition emits_stats_json : Collaborators :=
  collaborators (always with_stats_json).

Definition runtime_asset : Asset :=
  {| asset_name := "runtime.bundle.js";
     asset_size := 1%N;
     chunkNames := ["runtime"] |}.

(** A compilation that emitted the runtime chunk, a license file and the
    bundle. *)
Definition with_runtime_and_license : CompilePackageReturn :=
  compiled
    (succeeded_stats
       (Some [runtime_asset; asset "main.LICENSE.txt";
              asset "main.bundle.js"]))
    ["runtime.bundle.js"; "main.LICENSE.txt"; "main.bundle.js"].

Definition emits_runtime_and_license : Collaborators :=
  collaborators (always with_runtime_and_license).

Definition no_assets_list : Collaborators :=
  collaborators (always without_assets_list).

Definition named_imports : CreateEntryPointOptions :=
  {| esm := true;
     ce_customImports := Some ["map"; "filter"];
     entryFilename := None |}.

Definition empty_imports (esm : bool) : CreateEntryPointOptions :=
  {| esm := esm; ce_customImports := Some []; entryFilename := None |}.

(** Errors that cite a scoped deep import and an absolute path into the
    scope. *)
Definition sub_path_errors : list WebpackError :=
  [module_not_found "@x/y/z"; module_not_found "/@x/foo"].

(** Split mode with two named imports. *)
Definition imports_options : BuildPackageOptions :=
  {| splitCustomImports := true;
     customImports := Some ["map"; "filter"];
     minifier := terser;
     debug := false;
     calcParse := false;
     includeDependencySizes := false |}.

Definition imports_request : BuildPackageArgs :=
  {| bp_name := "foo";
     bp_installPath := "/tmp/foo";
     bp_externals := 1;
     bp_options := imports_options |}.

(** A disk that refuses the write of one path. *)
Definition refuses (path : string) : Collaborators :=
  {| path_join := Js.join "/";
     cwd := "/app";
     writeFileSync_error := fun p _ =>
       if String.eqb p path then Some "EACCES: permission denied" else None;
     webpack_run := always crashed;
     gzipSync := fun bytes => bytes;
     getParseTime := fun bytes => N.of_nat (length bytes);
     getDependencySizes := fun _ _ _ => [];
     isValidNPMName := valid_name |}.

(** The error of a source file that begins with a shebang line. *)
Definition syntax_error : WebpackError :=
  {| we_name := "ModuleParseError";
     we_error := "Module parse failed: Unexpected character '#' (1:0)";
     we_toString := "Module parse failed: Unexpected character '#' (1:0)" |}.

Definition shebang : Collaborators :=
  collaborators
    (always (compiled (failed_stats [syntax_error]) [])).

End Sample.

(** * Properties *)

(** ** The regular expressions and the classifier on examples *)

Example cant_resolve_lodash :
  Regex.cant_resolve
    "Error: Can't resolve 'lodash/get' in '/tmp/node_modules/foo'"
  = Some "lodash/get".
Proof. reflexivity. Qed.

Example cant_resolve_greedy :
  Regex.cant_resolve "Can't resolve 'a' in 'b' in c" = Some "a' in 'b".
Proof. reflexivity. Qed.

Example scoped_babel :
  Regex.scoped "@babel/runtime/helpers/create" = Some "@babel/runtime".
Proof. reflexivity. Qed.

Example segment_left_pad : Regex.segment "left-pad/index" = Some "left-pad".
Proof. reflexivity. Qed.

Example segment_absolute : Regex.segment "/@x/foo" = Some "@x".
Proof. reflexivity. Qed.

Example bundle_main : Regex.bundle "main.bundle.js" = Some ("main", "js").
Proof. reflexivity. Qed.

Example bundle_lazy :
  Regex.bundle "a.bundle.b.bundle.js" = Some ("a", "b.bundle.js").
Proof. reflexivity. Qed.

Example bundle_stats_json : Regex.bundle "stats.json" = None.
Proof. reflexivity. Qed.

Example bundle_needs_name : Regex.bundle ".bundle.js" = None.
Proof. reflexivity. Qed.

Example parse_lodash :
  _parseMissingModules
    [module_not_found "lodash/get"; module_not_found "lodash/get";
     module_not_found "lodash"] = Ok ["lodash"].
Proof. reflexivity. Qed.

Example parse_scoped_and_plain :
  _parseMissingModules
    [module_not_found "@babel/runtime/helpers/create";
     module_not_found "left-pad/index"] = Ok ["@babel/runtime"; "left-pad"].
Proof. reflexivity. Qed.

(** ** Strings *)

Lemma slashes_app s t : slashes (s +:+ t) = slashes s + slashes t.
Proof. induction s as [|c s IH]; simpl; [done|]. rewrite IH. lia. Qed.

Lemma span_not_slash_spec s run rest :
  Js.span_not_slash s = (run, rest) ->
  s = run +:+ rest /\ slashes run = 0.
Proof.
  revert run rest. induction s as [|c s IH]; simpl; intros run rest H.
  - by inversion H.
  - destruct (Js.is_slash c) eqn:Hc.
    + by inversion H.
    + destruct (Js.span_not_slash s) as [r1 r2]. inversion H; subst.
      destruct (IH r1 rest eq_refl) as [-> Hz]. simpl. rewrite Hc. auto.
Qed.

Lemma strip_prefix_app p s r :
  Js.strip_prefix p s = Some r -> s = p +:+ r.
Proof.
  revert s. induction p as [|a p IH]; intros s; simpl.
  - by intros [= ->].
  - destruct s as [|b s]; [done|].
    destruct (Ascii.eqb_spec a b) as [->|]; [|done].
    intros H. by rewrite (IH _ H).
Qed.

Lemma startsWith_app s p :
  Js.startsWith s p = true -> exists r, s = p +:+ r.
Proof.
  unfold Js.startsWith. destruct (Js.strip_prefix p s) as [r|] eqn:H; [|done].
  intros _. exists r. by apply strip_prefix_app.
Qed.

Lemma append_assoc (a b c : string) : (a +:+ b) +:+ c = a +:+ (b +:+ c).
Proof.
  induction a as [|x a IH]; [done|].
  change (String x ((a +:+ b) +:+ c) = String x (a +:+ (b +:+ c))).
  by rewrite IH.
Qed.

Lemma strip_prefix_append p r : Js.strip_prefix p (p +:+ r) = Some r.
Proof.
  induction p as [|a p IH]; [done|].
  change (Js.strip_prefix (String a p) (String a p +:+ r))
    with (if Ascii.eqb a a then Js.strip_prefix p (p +:+ r) else None).
  by rewrite Ascii.eqb_refl.
Qed.

Lemma includes_here s sub :
  Js.startsWith s sub = true -> Js.includes s sub = true.
Proof. intros H. destruct s; simpl; by rewrite H. Qed.

Lemma includes_later c s sub :
  Js.includes s sub = true -> Js.includes (String c s) sub = true.
Proof.
  intros H.
  change (Js.includes (String c s) sub)
    with (if Js.startsWith (String c s) sub then true else Js.includes s sub).
  rewrite H. by destruct (Js.startsWith _ _).
Qed.

Lemma includes_append pre s post : Js.includes (pre +:+ s +:+ post) s = true.
Proof.
  induction pre as [|c pre IH].
  - apply includes_here. unfold Js.startsWith.
    change (EmptyString +:+ s +:+ post) with (s +:+ post).
    by rewrite strip_prefix_append.
  - change (String c pre +:+ s +:+ post) with (String c (pre +:+ s +:+ post)).
    by apply includes_later.
Qed.

Lemma startsWith_at c s :
  Js.startsWith (String c s) "@" = Ascii.eqb "@" c.
Proof.
  unfold Js.startsWith.
  change (Js.strip_prefix "@" (String c s))
    with (if Ascii.eqb "@" c then Some s else None).
  by destruct (Ascii.eqb "@" c).
Qed.

Lemma startsWith_slash c s :
  Js.startsWith (String c s) "/" = Ascii.eqb "/" c.
Proof.
  unfold Js.startsWith.
  change (Js.strip_prefix "/" (String c s))
    with (if Ascii.eqb "/" c then Some s else None).
  by destruct (Ascii.eqb "/" c).
Qed.

Lemma startsWith_at_app c a r :
  Js.startsWith (String c a +:+ r) "@" = Js.startsWith (String c a) "@".
Proof.
  change (String c a +:+ r) with (String c (a +:+ r)).
  by rewrite !startsWith_at.
Qed.

(** ** What the regular expressions match *)

Lemma one_line_cons c s :
  one_line (String c s) =
  negb (Js.is_line_terminator c)
  && match s with EmptyString => true | _ => one_line s end.
Proof. destruct s; simpl; [by rewrite andb_true_r|done]. Qed.

Lemma dot_plus_to_end_spec s :
  Js.dot_plus_to_end s = if one_line s then Some s else None.
Proof.
  induction s as [|c s IH]; [done|].
  rewrite one_line_cons.
  change (Js.dot_plus_to_end (String c s))
    with (if Js.is_line_terminator c then None
          else match s with
               | EmptyString => Some (String c s)
               | String _ _ =>
                   match Js.dot_plus_to_end s with
                   | Some _ => Some (String c s)
                   | None => None
                   end
               end).
  destruct (Js.is_line_terminator c); [done|]. simpl.
  destruct s as [|d s]; [done|]. rewrite IH. by destruct (one_line _).
Qed.

Lemma bundle_here_unfold c s :
  Regex.bundle_here (String c s) =
  if Js.is_line_terminator c then None
  else match
         match Js.strip_prefix ".bundle." s with
         | Some rest => Js.dot_plus_to_end rest
         | None => None
         end
       with
       | Some ext => Some (String c EmptyString, ext)
       | None =>
           match Regex.bundle_here s with
           | Some (n, ext) => Some (String c n, ext)
           | None => None
           end
       end.
Proof. reflexivity. Qed.

Lemma bundle_unfold c s :
  Regex.bundle (String c s) =
  match Regex.bundle_here (String c s) with
  | Some m => Some m
  | None => Regex.bundle s
  end.
Proof. reflexivity. Qed.

Lemma bundle_here_sound s n ext :
  Regex.bundle_here s = Some (n, ext) ->
  s = n +:+ ".bundle." +:+ ext /\ one_line n = true /\ one_line ext = true.
Proof.
  revert n. induction s as [|c s IH]; intros n; [done|].
  rewrite bundle_here_unfold.
  destruct (Js.is_line_terminator c) eqn:Hc; [done|].
  destruct (Js.strip_prefix ".bundle." s) as [rest|] eqn:Hp.
  - rewrite dot_plus_to_end_spec.
    destruct (one_line rest) eqn:Hr.
    + intros [= <- <-]. apply strip_prefix_app in Hp as ->.
      split; [done|]. split; [|done]. simpl. by rewrite Hc.
    + destruct (Regex.bundle_here s) as [[n' e']|]; [|done].
      intros [= <- <-]. destruct (IH _ eq_refl) as (-> & Hn & He).
      split; [done|]. split; [|done]. rewrite one_line_cons, Hc.
      simpl. by destruct n'.
  - destruct (Regex.bundle_here s) as [[n' e']|]; [|done].
    intros [= <- <-]. destruct (IH _ eq_refl) as (-> & Hn & He).
    split; [done|]. split; [|done]. rewrite one_line_cons, Hc.
    simpl. by destruct n'.
Qed.

Lemma bundle_here_complete n ext :
  one_line n = true -> one_line ext = true ->
  Regex.bundle_here (n +:+ ".bundle." +:+ ext) <> None.
Proof.
  intros Hn He. induction n as [|c n IH]; [done|].
  change (String c n +:+ ".bundle." +:+ ext)
    with (String c (n +:+ ".bundle." +:+ ext)).
  rewrite bundle_here_unfold. rewrite one_line_cons in Hn.
  apply andb_true_iff in Hn as [Hc Hn].
  apply negb_true_iff in Hc. rewrite Hc.
  destruct n as [|d n].
  - change (EmptyString +:+ ".bundle." +:+ ext) with (".bundle." +:+ ext).
    rewrite strip_prefix_append, dot_plus_to_end_spec, He. done.
  - specialize (IH Hn).
    destruct (match Js.strip_prefix ".bundle." _ with
              | Some rest => Js.dot_plus_to_end rest
              | None => None
              end); [done|].
    destruct (Regex.bundle_here _) as [[n' e']|]; done.
Qed.

(** What [/(.+?)\.bundle\.(.+)$/] matches is an occurrence of
    [<name>.bundle.<ext>] that ends the string, with [<name>] and [<ext>]
    non-empty and on one line. *)
Theorem bundle_sound s n ext :
  Regex.bundle s = Some (n, ext) ->
  exists pre, s = pre +:+ n +:+ ".bundle." +:+ ext
              /\ one_line n = true /\ one_line ext = true.
Proof.
  induction s as [|c s IH]; [done|].
  rewrite bundle_unfold.
  destruct (Regex.bundle_here (String c s)) as [[n' e']|] eqn:Hh.
  - intros [= <- <-]. exists EmptyString. by apply bundle_here_sound.
  - intros H. destruct (IH H) as (pre & -> & Hn & He).
    by exists (String c pre).
Qed.

(** Every string that ends in such an occurrence is matched. *)
Theorem bundle_complete pre n ext :
  one_line n = true -> one_line ext = true ->
  Regex.bundle (pre +:+ n +:+ ".bundle." +:+ ext) <> None.
Proof.
  intros Hn He. induction pre as [|c pre IH].
  - change (EmptyString +:+ n +:+ ".bundle." +:+ ext)
      with (n +:+ ".bundle." +:+ ext).
    pose proof (bundle_here_complete n ext Hn He) as H.
    destruct (n +:+ ".bundle." +:+ ext) as [|c s] eqn:Hs; [done|].
    rewrite bundle_unfold. by destruct (Regex.bundle_here (String c s)).
  - change (String c pre +:+ n +:+ ".bundle." +:+ ext)
      with (String c (pre +:+ n +:+ ".bundle." +:+ ext)).
    rewrite bundle_unfold. by destruct (Regex.bundle_here _).
Qed.

Lemma dot_plus_greedy_sound lit s g :
  Js.dot_plus_greedy lit s = Some g ->
  exists post, s = g +:+ lit +:+ post /\ one_line g = true.
Proof.
  revert g. induction s as [|c s IH]; intros g; [done|].
  change (Js.dot_plus_greedy lit (String c s))
    with (if Js.is_line_terminator c then None
          else match Js.dot_plus_greedy lit s with
               | Some g => Some (String c g)
               | None => if Js.startsWith s lit
                         then Some (String c EmptyString) else None
               end).
  destruct (Js.is_line_terminator c) eqn:Hc; [done|].
  destruct (Js.dot_plus_greedy lit s) as [g'|].
  - intros [= <-]. destruct (IH _ eq_refl) as (post & -> & Hg).
    exists post. split; [done|]. rewrite one_line_cons, Hc. simpl.
    by destruct g'.
  - destruct (Js.startsWith s lit) eqn:Hl; [|done]. intros [= <-].
    apply startsWith_app in Hl as [post ->]. exists post.
    split; [done|]. simpl. by rewrite Hc.
Qed.

(** What [/Can't resolve '(.+)' in/] captures is a non-empty path on one
    line, between the two literals. *)
Theorem cant_resolve_sound s path :
  Regex.cant_resolve s = Some path ->
  exists pre post,
    s = pre +:+ "Can't resolve '" +:+ path +:+ "' in" +:+ post
    /\ one_line path = true.
Proof.
  induction s as [|c s IH].
  - done.
  - change (Regex.cant_resolve (String c s))
      with (match Regex.cant_resolve_here (String c s) with
            | Some g => Some g
            | None => Regex.cant_resolve s
            end).
    destruct (Regex.cant_resolve_here (String c s)) as [g|] eqn:Hh.
    + intros [= <-]. unfold Regex.cant_resolve_here in Hh.
      destruct (Js.strip_prefix "Can't resolve '" (String c s))
        as [rest|] eqn:Hp; [|done].
      apply strip_prefix_app in Hp. rewrite Hp.
      apply dot_plus_greedy_sound in Hh as (post & -> & Hg).
      exists EmptyString, post. split; [|done]. reflexivity.
    + intros H. destruct (IH H) as (pre & post & -> & Hg).
      by exists (String c pre), post.
Qed.

(** ** Arrays *)

(** array_from_set *)
Lemma NoDup_one {A} (x : A) : List.NoDup [x].
Proof. apply List.NoDup_cons; [simpl; tauto|apply List.NoDup_nil]. Qed.

Lemma array_includes_In l x : Js.array_includes l x = true <-> In x l.
Proof.
  unfold Js.array_includes. rewrite existsb_exists. split.
  - intros (y & Hy & Heq). apply String.eqb_eq in Heq. by subst.
  - intros H. exists x. split; [done|]. apply String.eqb_refl.
Qed.

Lemma fold_set_add l : forall acc,
  List.NoDup acc ->
  List.NoDup (fold_left Js.set_add l acc)
  /\ (forall x, In x (fold_left Js.set_add l acc) <-> In x acc \/ In x l)
  /\ exists tl, fold_left Js.set_add l acc = acc ++ tl.
Proof.
  induction l as [|y l IH]; intros acc Hnd; simpl.
  - split; [done|]. split; [tauto|]. exists []. by rewrite app_nil_r.
  - unfold Js.set_add at 2 4 6.
    destruct (Js.array_includes acc y) eqn:Hin.
    + apply array_includes_In in Hin.
      destruct (IH acc Hnd) as (H1 & H2 & H3). split; [done|]. split; [|done].
      intros x. rewrite H2. intuition (subst; auto).
    + assert (Hnin : ~ In y acc).
      { intros H. apply array_includes_In in H. congruence. }
      assert (Hnd' : List.NoDup (acc ++ [y])).
      { apply List.NoDup_app; [done|apply NoDup_one|].
        intros x Hx [->|[]]. done. }
      destruct (IH _ Hnd') as (H1 & H2 & tl & H3). split; [done|]. split.
      * intros x. rewrite H2, in_app_iff. simpl. tauto.
      * exists (y :: tl). rewrite H3, <- app_assoc. done.
Qed.

Lemma array_from_set_NoDup l : List.NoDup (Js.array_from_set l).
Proof. apply (fold_set_add l []). constructor. Qed.

Lemma array_from_set_In l x : In x (Js.array_from_set l) <-> In x l.
Proof.
  destruct (fold_set_add l [] (List.NoDup_nil _)) as (_ & H & _).
  unfold Js.array_from_set. rewrite H. simpl. tauto.
Qed.

Lemma array_from_set_first l :
  first_with_slash (Js.array_from_set l) = first_detected l +:+ "/".
Proof.
  destruct l as [|x l]; [done|].
  unfold Js.array_from_set.
  change (fold_left Js.set_add (x :: l) []) with (fold_left Js.set_add l [x]).
  destruct (fold_set_add l [x]) as (_ & _ & tl & ->).
  { apply NoDup_one. }
  reflexivity.
Qed.

(** map_throwing *)
Lemma map_throwing_Ok {A B} (f : A -> Outcome B) l ys :
  map_throwing f l = Ok ys ->
  forall y, In y ys <-> exists x, In x l /\ f x = Ok y.
Proof.
  revert ys. induction l as [|x l IH]; simpl; intros ys.
  - intros [= <-] y. simpl. split; [done|]. by intros (? & [] & _).
  - destruct (f x) as [y0|] eqn:Hx; [|done].
    destruct (map_throwing f l) as [ys0|]; [|done].
    intros [= <-] y. simpl. rewrite (IH _ eq_refl). split.
    + intros [->|(x' & ? & ?)]; eauto.
    + intros (x' & [->|?] & Hy); [left; congruence|right; eauto].
Qed.

Lemma map_throwing_total {A B} (f : A -> Outcome B) l :
  (forall x, In x l -> exists y, f x = Ok y) ->
  exists ys, map_throwing f l = Ok ys.
Proof.
  induction l as [|x l IH]; simpl; intros H; [eauto|].
  destruct (H x (or_introl eq_refl)) as [y ->].
  destruct IH as [ys ->]; eauto.
Qed.

Lemma map_throwing_defined {A B} (f : A -> Outcome B) l ys :
  map_throwing f l = Ok ys -> forall x, In x l -> exists y, f x = Ok y.
Proof.
  revert ys. induction l as [|x l IH]; simpl; intros ys; [done|].
  destruct (f x) as [y0|] eqn:Hx; [|done].
  destruct (map_throwing f l) as [ys0|]; [|done].
  intros _ x' [<-|Hin]; eauto.
Qed.

Lemma map_throwing_Throw {A B} (f : A -> Outcome B) l e :
  map_throwing f l = Throw e -> exists x, In x l /\ f x = Throw e.
Proof.
  induction l as [|x l IH]; simpl; [done|].
  destruct (f x) as [y|e0] eqn:Hx.
  - destruct (map_throwing f l); [done|]. intros [= ->].
    destruct IH as (x' & ? & ?); eauto.
  - intros [= ->]. eauto.
Qed.

Lemma map_throwing_first_failure {A B} (f : A -> Outcome B) l :
  (forall x, In x l -> exists y, f x = Ok y) \/
  exists pre x post e,
    l = pre ++ x :: post /\ f x = Throw e
    /\ (forall z, In z pre -> exists y, f z = Ok y)
    /\ map_throwing f l = Throw e.
Proof.
  induction l as [|x l IH]; [left; by intros ? []|].
  simpl. destruct (f x) as [y|e] eqn:Hx.
  - destruct IH as [IH|(pre & x' & post & e & -> & Hx' & Hpre & Hm)].
    + left. intros z [<-|Hz]; eauto.
    + right. exists (x :: pre), x', post, e. rewrite Hm.
      repeat split; auto. intros z [<-|Hz]; eauto.
  - right. exists [], x, l, e. repeat split; auto. by intros ? [].
Qed.

Lemma lookup_grows {A} (l new : list A) i x :
  l !! i = Some x -> (l ++ new) !! i = Some x.
Proof. intros H. by apply lookup_app_l_Some. Qed.

(** ** ErrorClassifier *)

Lemma segment_shape p n :
  Regex.segment p = Some n -> n <> EmptyString /\ slashes n = 0.
Proof.
  induction p as [|c p IH]; simpl; [done|].
  destruct (Js.is_slash c) eqn:Hc; [done|].
  destruct (Js.span_not_slash p) as [r1 r2] eqn:Hs. simpl.
  intros [= <-]. split; [done|].
  apply span_not_slash_spec in Hs as [_ Hz]. simpl. by rewrite Hc.
Qed.

Lemma segment_relative c p n :
  Js.is_slash c = false -> Regex.segment (String c p) = Some n ->
  exists n', n = String c n'.
Proof.
  simpl. intros ->. destruct (Js.span_not_slash p) as [r1 r2]. simpl.
  intros [= <-]. eauto.
Qed.

Lemma scoped_here_shape p n :
  Regex.scoped_here p = Some n ->
  exists n', n = String "@"%char n' /\ slashes n = 1.
Proof.
  unfold Regex.scoped_here. destruct p as [|c t]; [done|].
  destruct (Ascii.eqb_spec c "@"%char) as [->|Hne].
  2:{ intros H. exfalso. revert H.
      destruct c as [[] [] [] [] [] [] [] []]; try done. }
  destruct (Js.span_not_slash t) as [r1 r2] eqn:H1.
  destruct r1 as [|a scope]; [done|].
  destruct r2 as [|d u]; [done|].
  destruct (Ascii.eqb_spec d "/"%char) as [->|Hne].
  2:{ intros H. exfalso. revert H.
      destruct d as [[] [] [] [] [] [] [] []]; try done. }
  destruct (Js.span_not_slash u) as [q1 q2] eqn:H2.
  destruct q1 as [|b pkg]; [done|].
  intros [= <-]. eexists; split; [reflexivity|].
  apply span_not_slash_spec in H1 as [_ Hz1].
  apply span_not_slash_spec in H2 as [_ Hz2].
  change (slashes (String "@" (String a scope +:+ "/" +:+ String b pkg)) = 1).
  cbn [slashes]. rewrite slashes_app. rewrite Hz1.
  change (slashes ("/" +:+ String b pkg)) with (1 + slashes (String b pkg)).
  rewrite Hz2. reflexivity.
Qed.

Lemma scoped_shape p n :
  Regex.scoped p = Some n ->
  exists n', n = String "@"%char n' /\ slashes n = 1.
Proof.
  induction p as [|c p IH].
  - done.
  - change (Regex.scoped (String c p))
      with (match Regex.scoped_here (String c p) with
            | Some m => Some m
            | None => Regex.scoped p
            end).
    destruct (Regex.scoped_here (String c p)) as [m|] eqn:Hh.
    + intros [= <-]. by apply scoped_here_shape in Hh.
    + exact IH.
Qed.

Lemma well_shaped_no_subpath a b :
  well_shaped a -> well_shaped b -> strict_subpath b a = false.
Proof.
  intros [Hne Ha] [_ Hb]. destruct (strict_subpath b a) eqn:H; [|done].
  exfalso. apply startsWith_app in H as [r ->].
  destruct a as [|c a]; [done|].
  rewrite !slashes_app in Hb.
  change ((String c a +:+ "/") +:+ r) with (String c ((a +:+ "/") +:+ r)) in Hb.
  rewrite startsWith_at in Hb. rewrite startsWith_at in Ha. rewrite <- Ha in Hb.
  change (slashes "/") with 1 in Hb. lia.
Qed.

Lemma missingModuleOf_shape e n :
  cites_relative_path e = true -> missingModuleOf e = Ok n -> well_shaped n.
Proof.
  unfold cites_relative_path, missingModuleOf.
  destruct (Regex.cant_resolve (we_error e)) as [p|]; [|done].
  intros Hrel. destruct (Js.startsWith p "@") eqn:Hat.
  - destruct (Regex.scoped p) as [m|] eqn:Hm; [|done]. intros [= <-].
    apply scoped_shape in Hm as (n' & -> & Hs). split; [done|]. exact Hs.
  - destruct (Regex.segment p) as [m|] eqn:Hm; [|done]. intros [= <-].
    destruct p as [|c p]; [done|].
    assert (Hc : Js.is_slash c = false).
    { revert Hrel. rewrite startsWith_slash. unfold Js.is_slash.
      rewrite (Ascii.eqb_sym c). by destruct (Ascii.eqb "/" c). }
    destruct (segment_relative _ _ _ Hc Hm) as [n' ->].
    apply segment_shape in Hm as [_ Hz]. split; [done|]. rewrite Hz.
    revert Hat. rewrite !startsWith_at. by intros ->.
Qed.

Lemma missingModuleOf_cites path e :
  cites path e ->
  missingModuleOf e =
  match (if Js.startsWith path "@" then Regex.scoped path
         else Regex.segment path) with
  | None => Throw (UnexpectedBuildError no_package_name_message)
  | Some n => Ok n
  end.
Proof. intros [_ H]. unfold missingModuleOf. by rewrite H. Qed.

Lemma parseMissingModules_unfold errors :
  _parseMissingModules errors =
  match extracted_names errors with
  | Throw e => Throw e
  | Ok names =>
      Ok (List.filter
            (fun m => negb (strict_subpath m (first_detected names)))
            (Js.array_from_set names))
  end.
Proof.
  unfold _parseMissingModules, extracted_names.
  destruct (List.filter is_ModuleNotFoundError errors) as [|e l] eqn:Hf;
    [done|].
  destruct (map_throwing missingModuleOf (e :: l)) as [names|]; [|done].
  f_equal. unfold strict_subpath. by rewrite array_from_set_first.
Qed.

Lemma parseMissingModules_nil : _parseMissingModules [] = Ok [].
Proof. reflexivity. Qed.

Lemma parseMissingModules_NoDup errors l :
  _parseMissingModules errors = Ok l -> List.NoDup l.
Proof.
  rewrite parseMissingModules_unfold.
  destruct (extracted_names errors); [|done]. intros [= <-].
  apply List.NoDup_filter, array_from_set_NoDup.
Qed.

Lemma parseMissingModules_Throw errors e :
  _parseMissingModules errors = Throw e ->
  exists message, e = UnexpectedBuildError message.
Proof.
  unfold _parseMissingModules.
  destruct (List.filter is_ModuleNotFoundError errors) as [|x l]; [done|].
  destruct (map_throwing missingModuleOf (x :: l)) as [names|e0] eqn:Hm;
    [done|].
  intros [= ->]. apply map_throwing_Throw in Hm as (y & _ & Hy).
  revert Hy. unfold missingModuleOf.
  destruct (Regex.cant_resolve _); [|intros [= <-]; eauto].
  destruct (if Js.startsWith _ _ then _ else _); [done|].
  intros [= <-]; eauto.
Qed.

Lemma extracted_names_In errors names :
  extracted_names errors = Ok names ->
  forall m, In m names <->
    exists e, In e errors /\ is_ModuleNotFoundError e = true
              /\ missingModuleOf e = Ok m.
Proof.
  intros H m. rewrite (map_throwing_Ok _ _ _ H). split.
  - intros (e & He & Hm). apply filter_In in He as [? ?]. eauto.
  - intros (e & He & Hk & Hm). exists e. split; [|done].
    apply filter_In. auto.
Qed.

Lemma relative_paths_spec errors :
  relative_paths errors = true <->
  forall e, In e errors -> is_ModuleNotFoundError e = true ->
            cites_relative_path e = true.
Proof.
  unfold relative_paths. rewrite forallb_forall. split.
  - intros H e He Hk. specialize (H e He). rewrite Hk in H. exact H.
  - intros H e He. destruct (is_ModuleNotFoundError e) eqn:Hk; [|done].
    simpl. auto.
Qed.

Lemma relative_names_well_shaped errors names :
  relative_paths errors = true -> extracted_names errors = Ok names ->
  forall m, In m names -> well_shaped m.
Proof.
  intros Hrel Hn m Hm.
  apply (extracted_names_In _ _ Hn) in Hm as (e & He & Hk & Hm).
  eapply missingModuleOf_shape; [|exact Hm].
  by apply (proj1 (relative_paths_spec errors) Hrel).
Qed.

Lemma first_detected_In names m : In m names -> In (first_detected names) names.
Proof. destruct names; simpl; [done|auto]. Qed.

Lemma result_In names m :
  In m (List.filter (fun m => negb (strict_subpath m (first_detected names)))
          (Js.array_from_set names))
  <-> In m names /\ strict_subpath m (first_detected names) = false.
Proof.
  rewrite filter_In, array_from_set_In, negb_true_iff. tauto.
Qed.

Lemma extracted_names_Permutation errors errors' names :
  Permutation errors errors' -> extracted_names errors = Ok names ->
  exists names', extracted_names errors' = Ok names'
                 /\ same_elements names names'.
Proof.
  intros Hp Hn.
  destruct (map_throwing_total missingModuleOf
              (List.filter is_ModuleNotFoundError errors')) as [names' Hn'].
  { intros e He. apply filter_In in He as [He Hk].
    apply (map_throwing_defined _ _ _ Hn). apply filter_In. split; [|done].
    eapply Permutation_in; [symmetry; exact Hp|done]. }
  exists names'. split; [exact Hn'|]. intros m.
  rewrite (extracted_names_In _ _ Hn), (extracted_names_In _ _ Hn').
  split; intros (e & He & Hk & Hm); exists e; (split; [|done]).
  - eapply Permutation_in; [exact Hp|done].
  - eapply Permutation_in; [symmetry; exact Hp|done].
Qed.

(** C3 (amended). When [_parseMissingModules] returns, its result has no
    repeats and holds exactly the extracted package names that are not
    strict sub-paths of the first detected name. When no cited path
    begins with [/], no returned name is a strict sub-path of another and
    the returned set is invariant under reordering of the error list.
    Errors citing [lodash/get] twice and [lodash] once yield exactly
    [["lodash"]], in every order. *)
Theorem parseMissingModules_top_level
    (errors : list WebpackError) (l : list string) :
  _parseMissingModules errors = Ok l ->
  (exists names,
     extracted_names errors = Ok names
     /\ List.NoDup l
     /\ forall m, In m l <->
          In m names /\ strict_subpath m (first_detected names) = false)
  /\ (relative_paths errors = true ->
      (forall a b, In a l -> In b l -> strict_subpath a b = false)
      /\ forall errors', Permutation errors errors' ->
           exists l', _parseMissingModules errors' = Ok l'
                      /\ same_elements l l')
  /\ (forall e1 e2 e3,
        cites "lodash/get" e1 -> cites "lodash/get" e2 -> cites "lodash" e3 ->
        _parseMissingModules [e1; e2; e3] = Ok ["lodash"]
        /\ _parseMissingModules [e1; e3; e2] = Ok ["lodash"]
        /\ _parseMissingModules [e3; e1; e2] = Ok ["lodash"]).
Proof.
  rewrite parseMissingModules_unfold.
  destruct (extracted_names errors) as [names|] eqn:Hn; [|done].
  intros [= <-]. split; [|split].
  - exists names. split; [done|]. split.
    + apply List.NoDup_filter, array_from_set_NoDup.
    + intros m. apply result_In.
  - intros Hrel.
    pose proof (relative_names_well_shaped _ _ Hrel Hn) as Hws. split.
    + intros a b Ha Hb. apply result_In in Ha as [Ha _], Hb as [Hb _].
      apply well_shaped_no_subpath; auto.
    + intros errors' Hp.
      destruct (extracted_names_Permutation _ _ _ Hp Hn)
        as (names' & Hn' & Hsame).
      rewrite parseMissingModules_unfold, Hn'. eexists. split; [done|].
      assert (Hrel' : relative_paths errors' = true).
      { apply relative_paths_spec. intros e He.
        apply (proj1 (relative_paths_spec errors) Hrel).
        eapply Permutation_in; [symmetry; exact Hp|done]. }
      pose proof (relative_names_well_shaped _ _ Hrel' Hn') as Hws'.
      intros m. rewrite !result_In. split.
      * intros [Hm _]. apply Hsame in Hm. split; [done|].
        apply well_shaped_no_subpath; [|by auto].
        eapply Hws', first_detected_In, Hm.
      * intros [Hm _]. apply Hsame in Hm. split; [done|].
        apply well_shaped_no_subpath; [|by auto].
        eapply Hws, first_detected_In, Hm.
  - intros e1 e2 e3 H1 H2 H3.
    unfold _parseMissingModules. simpl.
    rewrite (proj1 H1), (proj1 H2), (proj1 H3). simpl.
    rewrite (missingModuleOf_cites _ _ H1), (missingModuleOf_cites _ _ H2),
      (missingModuleOf_cites _ _ H3).
    repeat split; reflexivity.
Qed.

Section Facts.

Context {env : Collaborators}.

(** ** EntryPointSynthesizer *)

Lemma importStatement_named packageName o imports :
  ce_customImports o = Some imports ->
  Js.includes (importStatement packageName o)
    (destructuring (esm o) imports packageName) = true
  /\ Js.includes (importStatement packageName o)
       (reference_to imports) = true.
Proof.
  intros Hc. unfold importStatement, destructuring, reference_to.
  rewrite Hc. destruct (esm o); split.
  - match goal with
    | |- Js.includes ?s ?f = true =>
        replace s with
          ((newline +:+ "          ") +:+ f +:+
           ("; " +:+ newline +:+ "          console.log("
            +:+ Js.join ", " imports +:+ ")" +:+ newline +:+ "     "))
    end; [apply includes_append|].
    rewrite !append_assoc. reflexivity.
  - match goal with
    | |- Js.includes ?s ?f = true =>
        replace s with
          ((newline +:+ "          import { " +:+ Js.join ", " imports
            +:+ " } from '" +:+ packageName +:+ "'; " +:+ newline
            +:+ "          ") +:+ f +:+ (newline +:+ "     "))
    end; [apply includes_append|].
    rewrite !append_assoc. reflexivity.
  - match goal with
    | |- Js.includes ?s ?f = true =>
        replace s with
          ((newline +:+ "        ") +:+ f +:+
           ("; " +:+ newline +:+ "        console.log("
            +:+ Js.join ", " imports +:+ ")" +:+ newline +:+ "        "))
    end; [apply includes_append|].
    rewrite !append_assoc. reflexivity.
  - match goal with
    | |- Js.includes ?s ?f = true =>
        replace s with
          ((newline +:+ "        const { " +:+ Js.join ", " imports
            +:+ " } = require('" +:+ packageName +:+ "'); " +:+ newline
            +:+ "        ") +:+ f +:+ (newline +:+ "        "))
    end; [apply includes_append|].
    rewrite !append_assoc. reflexivity.
Qed.

(** C6 (amended). For every call to [createEntryPoint]: if
    [customImports] is provided, empty or not, the generated source
    destructures exactly those named bindings from the package (in
    import or in require syntax, as [esm] says) and references all of
    them; only if [customImports] is absent does it take the default
    export and reference it. The source is written to the entry path,
    which is returned, when the write succeeds. *)
Theorem createEntryPoint_source (packageName installPath : string)
    (o : CreateEntryPointOptions) (w : World) :
  let source := importStatement packageName o in
  let entryPath := path_join [installPath; entryFilename_or_default o] in
  match ce_customImports o with
  | Some imports =>
      Js.includes source (destructuring (esm o) imports packageName) = true
      /\ Js.includes source (reference_to imports) = true
  | None => source = default_import (esm o) packageName
  end
  /\ (writeFileSync_error entryPath source = None ->
      createEntryPoint packageName installPath o w
      = (Ok entryPath, set_files ((entryPath, source) :: files w) w)).
Proof.
  intros source entryPath. split.
  - destruct (ce_customImports o) as [imports|] eqn:Hc.
    + by apply importStatement_named.
    + subst source. unfold importStatement, default_import. rewrite Hc.
      by destruct (esm o).
  - intros Hw. unfold createEntryPoint. fold source entryPath.
    by rewrite Hw.
Qed.

(** ** BuildOrchestrator *)

Lemma unchanged_objects_refl w : unchanged_objects w w.
Proof. by split. Qed.

Lemma unchanged_objects_trans w1 w2 w3 :
  unchanged_objects w1 w2 -> unchanged_objects w2 w3 ->
  unchanged_objects w1 w3.
Proof. intros [? ?] [? ?]. split; congruence. Qed.

Lemma disciplined_ret {A} (x : A) : disciplined (ret x).
Proof. intros w. split; [apply unchanged_objects_refl|done]. Qed.

Lemma disciplined_throw {A} e : possible_failure e -> disciplined (@throw A e).
Proof.
  intros He w. split; [apply unchanged_objects_refl|].
  by intros e' [= <-].
Qed.

Lemma disciplined_lift {A} (o : Outcome A) :
  (forall e, o = Throw e -> possible_failure e) -> disciplined (lift o).
Proof. intros Ho w. split; [apply unchanged_objects_refl|exact Ho]. Qed.

Lemma disciplined_bind {A B} (m : M A) (k : A -> M B) :
  disciplined m -> (forall x, disciplined (k x)) -> disciplined (bind m k).
Proof.
  intros Hm Hk w. unfold bind. destruct (Hm w) as [Hw He].
  destruct (m w) as [[x|e] w1]; simpl in *.
  - destruct (Hk x w1) as [Hw' He']. split; [|done].
    eapply unchanged_objects_trans; [exact Hw|exact Hw'].
  - split; [done|]. intros e' [= <-]. by apply He.
Qed.

Lemma disciplined_Telemetry ev : disciplined (Telemetry ev).
Proof. by intros w. Qed.

Lemma disciplined_createEntryPoint n p o :
  disciplined (createEntryPoint n p o).
Proof.
  intros w. unfold createEntryPoint.
  destruct (writeFileSync_error _ _); simpl; [|done].
  split; [done|]. by intros e [= <-].
Qed.

Lemma disciplined_compilePackage a : disciplined (compilePackage a).
Proof. by intros w. Qed.

Lemma disciplined_forEach_customImport n p l : forall entry,
  disciplined (forEach_customImport n p l entry).
Proof.
  induction l as [|i l IH]; intros entry; simpl.
  - apply disciplined_ret.
  - apply disciplined_bind; [apply disciplined_createEntryPoint|].
    intros x. apply IH.
Qed.

Lemma disciplined_makeEntry a : disciplined (makeEntry a).
Proof.
  unfold makeEntry. destruct (splitCustomImports _).
  - apply disciplined_forEach_customImport.
  - apply disciplined_bind; [apply disciplined_createEntryPoint|].
    intros. apply disciplined_ret.
Qed.

Lemma getAssetStats_Throw o r asset e :
  getAssetStats o r asset = Throw e -> possible_failure e.
Proof.
  unfold getAssetStats. destruct (memoryFileSystem r _); [|by intros [= <-]].
  destruct (Regex.bundle _) as [[? ?]|]; [done|]. by intros [= <-].
Qed.

Lemma disciplined_classify n errors js : disciplined (classify n errors js).
Proof.
  unfold classify. apply disciplined_bind.
  - apply disciplined_lift. intros e He.
    by apply parseMissingModules_Throw in He as [message ->].
  - intros l. destruct l as [|m l].
    + destruct (js_errors js) as [[|e es]|];
        try by apply disciplined_throw.
      destruct (existsb _ _); by apply disciplined_throw.
    + destruct (only_module _ _); by apply disciplined_throw.
Qed.

Lemma disciplined_report a r js : disciplined (report a r js).
Proof.
  unfold report. apply disciplined_bind.
  - destruct (js_assets js); [|apply disciplined_ret].
    apply disciplined_bind; [|intros; apply disciplined_ret].
    apply disciplined_lift. intros e He.
    apply map_throwing_Throw in He as (x & _ & Hx).
    by eapply getAssetStats_Throw.
  - intros. apply disciplined_bind; [apply disciplined_Telemetry|].
    intros. apply disciplined_ret.
Qed.

Lemma disciplined_interpret a r : disciplined (interpret a r).
Proof.
  unfold interpret. destruct (stats r) as [st|].
  - apply disciplined_bind; [apply disciplined_ret|]. intros [js|].
    + apply disciplined_bind; [apply disciplined_Telemetry|]. intros _.
      assert (Hrest : disciplined
        (let* errors := stats_compilation_errors (Some st) in
         match errors with
         | Some (e :: es) => classify (bp_name a) (e :: es) js
         | _ => report a r js
         end)).
      { apply disciplined_bind; [apply disciplined_ret|].
        intros [[|e es]|]; try apply disciplined_report.
        apply disciplined_classify. }
      by destruct (error r).
    + apply disciplined_bind; [apply disciplined_Telemetry|]. intros _.
      by apply disciplined_throw.
  - intros w. split; [apply unchanged_objects_refl|].
    by intros e [= <-].
Qed.

Lemma disciplined_after_enter a :
  disciplined
    (if splitCustomImports (bp_options a) && no_customImports (bp_options a)
     then ret {| assets := []; dependencySizes := None |}
     else let* entry := makeEntry a in
          let* r := compilePackage (compileArgs a entry) in
          interpret a r).
Proof.
  destruct (_ && _); [apply disciplined_ret|].
  apply disciplined_bind; [apply disciplined_makeEntry|]. intros entry.
  apply disciplined_bind; [apply disciplined_compilePackage|]. intros r.
  apply disciplined_interpret.
Qed.

Lemma buildPackage_enters a w :
  buildPackage a w =
  (if splitCustomImports (bp_options a) && no_customImports (bp_options a)
   then ret {| assets := []; dependencySizes := None |}
   else let* entry := makeEntry a in
        let* r := compilePackage (compileArgs a entry) in
        interpret a r) (enters a w).
Proof. reflexivity. Qed.

Lemma buildPackage_objects a w :
  heap (snd (buildPackage a w)) = heap w
  /\ buildCalls (snd (buildPackage a w)) = buildCalls w ++ [a].
Proof.
  rewrite buildPackage_enters.
  destruct (disciplined_after_enter a (enters a w)) as [[H1 H2] _].
  by rewrite H1, H2.
Qed.

Lemma buildPackage_failure a w e :
  fst (buildPackage a w) = Throw e -> possible_failure e.
Proof.
  rewrite buildPackage_enters.
  apply (disciplined_after_enter a (enters a w)).
Qed.

(** The [throw new BuildError(error)] of line 247 is dead code. *)
Lemma buildPackage_never_wraps_invocation_error a w err :
  fst (buildPackage a w) <> Throw (BuildError (OfInvocationError err)).
Proof. intros H. by apply buildPackage_failure in H. Qed.

Lemma buildPackage_reaches a w r w' :
  compiler_yields a w r w' -> buildPackage a w = interpret a r w'.
Proof.
  intros (Hgo & entry & w1 & He & Hc).
  rewrite buildPackage_enters, Hgo.
  unfold bind at 1. rewrite He.
  unfold bind at 1. by rewrite Hc.
Qed.

(** C8. For every request with [splitCustomImports] set and
    [customImports] absent or empty, [buildPackage] returns
    [{assets: []}] at once: the only change to the world is the record
    of the call itself, so no entry point is written and the compiler
    is not invoked. *)
Theorem buildPackage_split_without_imports
    (a : BuildPackageArgs) (w : World) :
  splitCustomImports (bp_options a) = true ->
  customImports (bp_options a) = None
  \/ customImports (bp_options a) = Some [] ->
  fst (buildPackage a w) = Ok {| assets := []; dependencySizes := None |}
  /\ snd (buildPackage a w) = enters a w
  /\ files (snd (buildPackage a w)) = files w
  /\ compileCalls (snd (buildPackage a w)) = compileCalls w.
Proof.
  intros Hs Hc. rewrite buildPackage_enters, Hs.
  assert (Hn : no_customImports (bp_options a) = true).
  { unfold no_customImports. by destruct Hc as [-> | ->]. }
  by rewrite Hn.
Qed.

(** Whenever the compiler hands back no stats object, with or without
    an invocation error, the call ends in the [TypeError] of
    [stats.toJson]. *)
Lemma buildPackage_without_stats a w r w' :
  compiler_yields a w r w' -> stats r = None ->
  buildPackage a w
  = (Throw (TypeError "Cannot read property 'toJson' of undefined"), w').
Proof.
  intros Hy Hs. rewrite (buildPackage_reaches _ _ _ _ Hy).
  unfold interpret, bind, stats_toJson. by rewrite Hs.
Qed.

(** A stats object whose summary is null fails the build before any
    classification. *)
Lemma buildPackage_null_summary a w r w' st :
  compiler_yields a w r w' -> stats r = Some st -> toJson st = None ->
  fst (buildPackage a w)
  = Throw (UnexpectedBuildError
             "Expected webpack json stats to be non-null, but was null").
Proof.
  intros Hy Hs Hj. rewrite (buildPackage_reaches _ _ _ _ Hy).
  unfold interpret, bind, stats_toJson. rewrite Hs. simpl. by rewrite Hj.
Qed.

Lemma interpret_with_stats a r w st js :
  stats r = Some st -> toJson st = Some js ->
  interpret a r w =
  match compilation_errors st with
  | Some (e :: es) => classify (bp_name a) (e :: es) js
  | _ => report a r js
  end (set_telemetry
         (telemetry w ++ [TParseWebpackStats (bp_name a) true]) w).
Proof.
  intros Hs Hj. unfold interpret, bind, stats_toJson, stats_compilation_errors.
  rewrite Hs. simpl. rewrite Hj. simpl. by destruct (error r).
Qed.

(** C4. For every call whose compiler stats hold compiler-level errors
    from which the classifier extracts a non-empty set of missing
    modules (the stats summary having been produced, which is checked
    before the classification): if that set is exactly the package
    under build, [buildPackage] fails with an [EntryPointError]; in
    every other case, also when the package name comes with other
    names, it fails with a [MissingDependencyError] that carries the
    distinct missing module names as extra data. *)
Theorem buildPackage_missing_modules a w r w' st js errors missing :
  compiler_yields a w r w' ->
  stats r = Some st -> toJson st = Some js ->
  compilation_errors st = Some errors ->
  _parseMissingModules errors = Ok missing ->
  missing <> [] ->
  List.NoDup missing
  /\ fst (buildPackage a w) =
     if decide (missing = [bp_name a])
     then Throw (EntryPointError (OfMessages (map we_toString errors)))
     else Throw (MissingDependencyError
                   {| md_originalError := map we_toString errors;
                      md_missingModules := missing;
                      md_extra_missingModules := missing |}).
Proof.
  intros Hy Hs Hj He Hp Hne. split; [by eapply parseMissingModules_NoDup|].
  rewrite (buildPackage_reaches _ _ _ _ Hy).
  rewrite (interpret_with_stats _ _ _ _ _ Hs Hj), He.
  destruct errors as [|e es].
  { rewrite parseMissingModules_nil in Hp. congruence. }
  unfold classify, bind, lift. rewrite Hp.
  destruct missing as [|m ms]; [done|].
  unfold only_module. destruct ms as [|m' ms].
  - destruct (String.eqb_spec m (bp_name a)) as [->|Hm].
    + by rewrite decide_True.
    + rewrite decide_False; [done|]. congruence.
  - by rewrite decide_False.
Qed.

Lemma getAssetStats_outcome o r asset :
  memoryFileSystem r (path_join [cwd; "dist"; asset_name asset]) <> None ->
  match Regex.bundle (asset_name asset) with
  | None => getAssetStats o r asset
            = Throw (UnexpectedBuildError (unrecognized_asset_message asset))
  | Some _ => exists s, getAssetStats o r asset = Ok s
  end.
Proof.
  intros Hm. unfold getAssetStats.
  destruct (memoryFileSystem r _); [|done].
  destruct (Regex.bundle (asset_name asset)) as [[n e]|]; eauto.
Qed.

(** C9. For every successful compilation (no compiler-level error,
    every surviving asset emitted to the output file system): if some
    asset that survives the exclusion of the runtime chunk and of the
    [LICENSE.txt] assets has a file name that does not match
    [<name>.bundle.<ext>], the whole build fails with an
    [UnexpectedBuildError] that names such an asset; the asset is not
    skipped. *)
Theorem buildPackage_unrecognized_asset a w r w' st js l :
  compiler_yields a w r w' ->
  stats r = Some st -> toJson st = Some js ->
  no_compilation_errors st ->
  js_assets js = Some l ->
  assets_emitted r (surviving_assets l) ->
  (exists asset, In asset (surviving_assets l)
                 /\ Regex.bundle (asset_name asset) = None) ->
  exists asset,
    In asset (surviving_assets l)
    /\ Regex.bundle (asset_name asset) = None
    /\ fst (buildPackage a w)
       = Throw (UnexpectedBuildError (unrecognized_asset_message asset)).
Proof.
  intros Hy Hs Hj Hne Ha Hem (bad & Hbad & Hno).
  rewrite (buildPackage_reaches _ _ _ _ Hy).
  rewrite (interpret_with_stats _ _ _ _ _ Hs Hj).
  assert (Hrep : forall w0,
    match compilation_errors st with
    | Some (e :: es) => classify (bp_name a) (e :: es) js
    | _ => report a r js
    end w0 = report a r js w0).
  { intros w0. by destruct Hne as [-> | ->]. }
  rewrite Hrep. unfold report, bind, lift. rewrite Ha.
  destruct (map_throwing_first_failure (getAssetStats (bp_options a) r)
              (surviving_assets l))
    as [Hall|(pre & x & post & e & Hl & Hx & Hpre & Hm)].
  - destruct (Hall bad Hbad) as [s Hs'].
    pose proof (getAssetStats_outcome (bp_options a) r bad (Hem _ Hbad)) as H.
    rewrite Hno in H. congruence.
  - assert (Hin : In x (surviving_assets l)).
    { rewrite Hl. apply in_elt. }
    pose proof (getAssetStats_outcome (bp_options a) r x (Hem _ Hin)) as H.
    destruct (Regex.bundle (asset_name x)) as [p|] eqn:Hb.
    + destruct H as [s H]. congruence.
    + exists x. split; [done|]. split; [done|].
      rewrite Hm. simpl. congruence.
Qed.

(** C10. For every call where the compiler reports no errors and the
    stats summary has no assets list at all, [buildPackage] returns a
    result whose [assets] field is the empty list. *)
Theorem buildPackage_without_assets_list a w r w' st js :
  compiler_yields a w r w' ->
  stats r = Some st -> toJson st = Some js ->
  no_compilation_errors st ->
  js_assets js = None ->
  exists result,
    fst (buildPackage a w) = Ok result /\ assets result = [].
Proof.
  intros Hy Hs Hj Hne Ha.
  rewrite (buildPackage_reaches _ _ _ _ Hy).
  rewrite (interpret_with_stats _ _ _ _ _ Hs Hj).
  assert (Hrep : forall w0,
    match compilation_errors st with
    | Some (e :: es) => classify (bp_name a) (e :: es) js
    | _ => report a r js
    end w0 = report a r js w0).
  { intros w0. by destruct Hne as [-> | ->]. }
  rewrite Hrep. unfold report, bind. rewrite Ha. simpl. eauto.
Qed.

(** ** RetryController *)

Lemma controller_unfold a w :
  buildPackageIgnoringMissingDeps a w =
  match buildPackage a w with
  | (Ok buildResult, w1) =>
      (Ok {| ignoredMissingDependencies := None;
             cr_result := buildResult |},
       set_telemetry
         (telemetry w1
          ++ [TBuildPackage (bp_name a) true (bp_options a) 1 None None])
         w1)
  | (Throw e, w1) =>
      match retry_allowed e with
      | Some md =>
          match widen_externals (bp_externals a)
                  (md_extra_missingModules md) w1 with
          | (Ok newExternals, w2) =>
              match buildPackage (with_externals a newExternals) w2 with
              | (Ok rebuiltResult, w3) =>
                  (Ok {| ignoredMissingDependencies :=
                           Some (md_extra_missingModules md);
                         cr_result := rebuiltResult |},
                   set_telemetry
                     (telemetry w3
                      ++ [TBuildPackage (bp_name a) true (bp_options a) 2
                            (Some (md_extra_missingModules md)) None])
                     w3)
              | (Throw e', w3) => (Throw e', w3)
              end
          | (Throw e', w2) => (Throw e', w2)
          end
      | None =>
          (Throw e,
           set_telemetry
             (telemetry w1
              ++ [TBuildPackage (bp_name a) false (bp_options a) 2
                    None (Some e)])
             w1)
      end
  end.
Proof.
  unfold buildPackageIgnoringMissingDeps, try_catch, bind.
  destruct (buildPackage a w) as [[res|e] w1]; [done|].
  destruct (retry_allowed e) as [md|]; [|done].
  destruct (widen_externals _ _ w1) as [[e'|e'] w2]; [|done].
  by destruct (buildPackage _ w2) as [[res|e''] w3].
Qed.

Lemma retry_allowed_Some e md :
  retry_allowed e = Some md <->
  e = MissingDependencyError md
  /\ length (md_missingModules md) <= 6
  /\ forallb isValidNPMName (md_missingModules md) = true.
Proof.
  unfold retry_allowed. destruct e as [| md' | | | | |];
    try (split; [done|by intros [? _]]).
  destruct (Nat.leb_spec (length (md_missingModules md')) 6) as [Hl|Hl];
    simpl.
  - destruct (forallb isValidNPMName (md_missingModules md')) eqn:Hv.
    + split; [by intros [= <-]|by intros [[= <-] _]].
    + split; [done|]. intros ([= <-] & _ & ?). congruence.
  - split; [done|]. intros ([= <-] & ? & _). lia.
Qed.


(** Whatever [widen_externals] does, the objects that were there stay
    and the new ones are new. *)
Lemma widen_externals_grows e missing w r w' :
  widen_externals e missing w = (r, w') ->
  buildCalls w' = buildCalls w
  /\ exists new, heap w' = heap w ++ new
     /\ forall e', r = Ok e' ->
          length (heap w) <= e'
          /\ exists o', heap w' !! e' = Some (HExternals o')
                        /\ length (heap w) <= externalPackages o'
                        /\ exists packages,
                             externals_list w e = Some packages
                             /\ heap w' !! externalPackages o'
                                = Some (HArray (packages ++ missing)).
Proof.
  unfold widen_externals.
  destruct (heap w !! e) as [[|o]|] eqn:He;
    try (intros [= <- <-]; split; [done|]; exists [];
         rewrite app_nil_r; split; [done|]; by intros).
  destruct (heap w !! externalPackages o) as [[packages|]|] eqn:Hp;
    try (intros [= <- <-]; split; [done|]; exists [];
         rewrite app_nil_r; split; [done|]; by intros).
  unfold bind, alloc, set_heap. simpl. intros [= <- <-]. simpl.
  split; [done|]. eexists. rewrite <- app_assoc. split; [reflexivity|].
  intros e' [= <-]. rewrite length_app. simpl. split; [lia|].
  eexists. split.
  { rewrite lookup_app_r by lia.
    replace (length (heap w) + 1 - length (heap w)) with 1 by lia.
    reflexivity. }
  simpl. split; [lia|]. exists packages. split.
  { unfold externals_list. by rewrite He, Hp. }
  rewrite lookup_app_r by lia. by rewrite Nat.sub_diag.
Qed.


(** C5. For every call to [buildPackageIgnoringMissingDeps],
    [buildPackage] is invoked at most twice; when the retried build
    throws, that error is what the caller gets, after exactly two
    invocations. *)
Theorem at_most_one_retry (a : BuildPackageArgs) (w : World) :
  (exists calls,
     buildCalls (snd (buildPackageIgnoringMissingDeps a w))
     = buildCalls w ++ calls
     /\ length calls <= 2)
  /\ forall e w1 md newExternals w2 e',
       buildPackage a w = (Throw e, w1) ->
       retry_allowed e = Some md ->
       widen_externals (bp_externals a) (md_extra_missingModules md) w1
       = (Ok newExternals, w2) ->
       fst (buildPackage (with_externals a newExternals) w2) = Throw e' ->
       fst (buildPackageIgnoringMissingDeps a w) = Throw e'
       /\ buildCalls (snd (buildPackageIgnoringMissingDeps a w))
          = buildCalls w ++ [a; with_externals a newExternals].
Proof.
  pose proof (buildPackage_objects a w) as [_ Hcalls].
  rewrite controller_unfold. split.
  - destruct (buildPackage a w) as [[res|e] w1]; simpl in Hcalls.
    { exists [a]. simpl. split; [done|lia]. }
    destruct (retry_allowed e) as [md|].
    2:{ exists [a]. simpl. split; [done|lia]. }
    destruct (widen_externals _ _ w1) as [[e1|e1] w2] eqn:Hw;
      apply widen_externals_grows in Hw as (Hc2 & _).
    2:{ exists [a]. simpl. split; [congruence|lia]. }
    pose proof (buildPackage_objects (with_externals a e1) w2) as [_ Hc3].
    exists [a; with_externals a e1].
    split; [|simpl; lia].
    destruct (buildPackage _ w2) as [[res|e3] w3]; simpl in *;
      rewrite Hc3, Hc2, Hcalls, <- app_assoc; done.
  - intros e w1 md e1 w2 e' Hb Hr Hw He'.
    rewrite Hb in Hcalls. simpl in Hcalls. rewrite Hb, Hr, Hw.
    apply widen_externals_grows in Hw as (Hc2 & _).
    pose proof (buildPackage_objects (with_externals a e1) w2) as [_ Hc3].
    destruct (buildPackage _ w2) as [[res|e3] w3]; simpl in *; [done|].
    split; [congruence|]. rewrite Hc3, Hc2, Hcalls, <- app_assoc. done.
Qed.

(** C7. Every object of the caller is the same after the call as
    before it, in particular the externals object and its
    [externalPackages] list; the externals object of a retry is a new
    object, and so is its list. *)
Theorem retry_copies_externals (a : BuildPackageArgs) (w : World) :
  (forall l c,
     heap w !! l = Some c ->
     heap (snd (buildPackageIgnoringMissingDeps a w)) !! l = Some c)
  /\ (forall packages,
        externals_list w (bp_externals a) = Some packages ->
        externals_list (snd (buildPackageIgnoringMissingDeps a w))
          (bp_externals a) = Some packages)
  /\ forall e w1 md newExternals w2,
       buildPackage a w = (Throw e, w1) ->
       retry_allowed e = Some md ->
       widen_externals (bp_externals a) (md_extra_missingModules md) w1
       = (Ok newExternals, w2) ->
       heap w !! newExternals = None
       /\ exists o',
            heap (snd (buildPackageIgnoringMissingDeps a w)) !! newExternals
            = Some (HExternals o')
            /\ heap w !! externalPackages o' = None.
Proof.
  assert (Hgrow : exists new,
    heap (snd (buildPackageIgnoringMissingDeps a w)) = heap w ++ new
    /\ forall e w1 md newExternals w2,
         buildPackage a w = (Throw e, w1) ->
         retry_allowed e = Some md ->
         widen_externals (bp_externals a) (md_extra_missingModules md) w1
         = (Ok newExternals, w2) ->
         heap w2 = heap w ++ new).
  { pose proof (buildPackage_objects a w) as [Hheap _].
    rewrite controller_unfold.
    destruct (buildPackage a w) as [[res|e] w1]; simpl in Hheap.
    { exists []. rewrite app_nil_r. split; [done|]. by intros. }
    destruct (retry_allowed e) as [md|] eqn:Hr.
    2:{ exists []. rewrite app_nil_r. split; [done|].
        intros ? ? ? ? ? [= <- <-]. congruence. }
    destruct (widen_externals _ _ w1) as [[e1|e1] w2] eqn:Hw.
    2:{ pose proof Hw as Hw'.
        apply widen_externals_grows in Hw as (_ & new & Hh & _).
        exists new. split; [simpl; congruence|].
        intros ? ? ? ? ? [= <- <-]. rewrite Hr. intros [= <-]. congruence. }
    pose proof Hw as Hw'.
    apply widen_externals_grows in Hw as (_ & new & Hh & _).
    pose proof (buildPackage_objects (with_externals a e1) w2) as [Hh3 _].
    exists new. split.
    - destruct (buildPackage _ w2) as [[res|e3] w3]; simpl in *; congruence.
    - intros e0 w0 md0 e2 w4 [= <- <-]. rewrite Hr. intros [= <-]. rewrite Hw'.
      intros [= <- <-]. congruence. }
  destruct Hgrow as (new & Hfinal & Hretry).
  assert (Hkeep : forall l c,
    heap w !! l = Some c ->
    heap (snd (buildPackageIgnoringMissingDeps a w)) !! l = Some c).
  { intros l c Hl. rewrite Hfinal. by apply lookup_grows. }
  split; [exact Hkeep|]. split.
  - intros packages. unfold externals_list.
    destruct (heap w !! bp_externals a) as [[|o]|] eqn:He; try done.
    destruct (heap w !! externalPackages o) as [[l|]|] eqn:Hp; try done.
    intros [= <-]. by rewrite (Hkeep _ _ He), (Hkeep _ _ Hp).
  - intros e w1 md e1 w2 Hb Hr Hw.
    pose proof (buildPackage_objects a w) as [Hheap _].
    rewrite Hb in Hheap. simpl in Hheap.
    pose proof (Hretry _ _ _ _ _ Hb Hr Hw) as Hh2.
    apply widen_externals_grows in Hw as (_ & new' & _ & Hnew).
    destruct (Hnew _ eq_refl) as (Hfresh & o' & Ho' & Hfresh' & _).
    rewrite Hheap in Hfresh, Hfresh'. split.
    { by apply lookup_ge_None_2. }
    exists o'. split.
    + rewrite Hfinal, <- Hh2. exact Ho'.
    + by apply lookup_ge_None_2.
Qed.

End Facts.

(** ** The properties at sample inputs *)

(** Witness of C3: a scoped package cited twice and a plain one. *)
Lemma parseMissingModules_top_level_witness :
  _parseMissingModules
    [module_not_found "@babel/runtime/helpers/create";
     module_not_found "left-pad/index";
     module_not_found "@babel/runtime/regenerator"]
  = Ok ["@babel/runtime"; "left-pad"]
  /\ forall a b, In a ["@babel/runtime"; "left-pad"] ->
       In b ["@babel/runtime"; "left-pad"] -> strict_subpath a b = false.
Proof.
  split; [reflexivity|].
  apply (parseMissingModules_top_level
           [module_not_found "@babel/runtime/helpers/create";
            module_not_found "left-pad/index";
            module_not_found "@babel/runtime/regenerator"]
           ["@babel/runtime"; "left-pad"] eq_refl).
  reflexivity.
Defined.

(** C3, as stated, fails: a name that is a strict sub-path of a name
    detected later is kept, and reordering the errors changes the
    returned set. *)
Lemma parseMissingModules_not_order_invariant :
  _parseMissingModules Sample.sub_path_errors = Ok ["@x/y"; "@x"]
  /\ strict_subpath "@x/y" "@x" = true
  /\ Permutation Sample.sub_path_errors (rev Sample.sub_path_errors)
  /\ _parseMissingModules (rev Sample.sub_path_errors) = Ok ["@x"].
Proof.
  repeat split; try reflexivity. apply Permutation_rev.
Qed.

(** Witness of C6: two named imports in module syntax. *)
Lemma createEntryPoint_source_witness :
  createEntryPoint (env := Sample.bundler_crashes)
    "lodash" "/tmp/lodash" Sample.named_imports Sample.world
  = (Ok "/tmp/lodash/index.js",
     set_files
       [("/tmp/lodash/index.js",
         importStatement "lodash" Sample.named_imports)]
       Sample.world).
Proof.
  apply (proj2 (createEntryPoint_source
                  (env := Sample.bundler_crashes)
                  "lodash" "/tmp/lodash" Sample.named_imports Sample.world)).
  reflexivity.
Defined.

(** C6, as stated, fails: an empty [customImports] does not give the
    default import but an empty destructuring, in both syntaxes. *)
Lemma createEntryPoint_empty_customImports :
  importStatement "foo" (Sample.empty_imports false)
  = newline +:+ "        const {  } = require('foo'); " +:+ newline
    +:+ "        console.log()" +:+ newline +:+ "        "
  /\ importStatement "foo" (Sample.empty_imports false)
     <> default_import false "foo"
  /\ Js.includes (importStatement "foo" (Sample.empty_imports false))
       "const p = require('foo')" = false
  /\ importStatement "foo" (Sample.empty_imports true)
     = newline +:+ "          import {  } from 'foo'; " +:+ newline
       +:+ "          console.log()" +:+ newline +:+ "     "
  /\ importStatement "foo" (Sample.empty_imports true)
     <> default_import true "foo"
  /\ Js.includes (importStatement "foo" (Sample.empty_imports true))
       "import p from 'foo'" = false.
Proof. repeat split; try reflexivity; discriminate. Qed.

(** C1 (fails on the code). The bundler of this call yields an invocation
    error and no stats object. [buildPackage] does not fail with a
    [BuildError] that wraps the error: the stats are read by
    [stats.toJson] before the test of line 246, and the call ends in a
    [TypeError]. *)
Theorem buildPackage_invocation_error_without_stats :
  fst (buildPackage (env := Sample.bundler_crashes)
         Sample.request Sample.world)
  = Throw (TypeError "Cannot read property 'toJson' of undefined")
  /\ fst (buildPackage (env := Sample.bundler_crashes)
            Sample.request Sample.world)
     <> Throw (BuildError (OfInvocationError Sample.invocation_error)).
Proof. split; [reflexivity|discriminate]. Qed.

(** The sample request gets as far as the compiler, whatever the
    bundler. *)
Lemma compiler_yields_sample run :
  compiler_yields (env := Sample.collaborators run) Sample.request Sample.world
    (run (compileArgs Sample.request {["main" := "/tmp/foo/index.js"]})
       (set_files
          [("/tmp/foo/index.js", "const p = require('foo'); console.log(p)")]
          (enters Sample.request Sample.world)))
    (snd (compilePackage (env := Sample.collaborators run)
            (compileArgs Sample.request {["main" := "/tmp/foo/index.js"]})
            (set_files
               [("/tmp/foo/index.js",
                 "const p = require('foo'); console.log(p)")]
               (enters Sample.request Sample.world)))).
Proof.
  split; [reflexivity|]. eexists _, _. split; reflexivity.
Defined.

(** Witness of C8: split mode with an empty list of imports. *)
Lemma buildPackage_split_without_imports_witness :
  fst (buildPackage
         (env := Sample.bundler_crashes)
         Sample.split_request Sample.world)
  = Ok {| assets := []; dependencySizes := None |}
  /\ snd (buildPackage
            (env := Sample.bundler_crashes)
            Sample.split_request Sample.world)
     = enters Sample.split_request Sample.world
  /\ files (snd (buildPackage
                   (env := Sample.bundler_crashes)
                   Sample.split_request Sample.world))
     = files Sample.world
  /\ compileCalls
       (snd (buildPackage
               (env := Sample.bundler_crashes)
               Sample.split_request Sample.world))
     = compileCalls Sample.world.
Proof.
  apply (buildPackage_split_without_imports
           (env := Sample.bundler_crashes)
           Sample.split_request Sample.world eq_refl (or_intror eq_refl)).
Defined.

(** Witness of C4: the bundler cannot resolve [bar]. *)
Lemma buildPackage_missing_modules_witness :
  List.NoDup ["bar"]
  /\ fst (buildPackage (env := Sample.bar_is_missing)
            Sample.request Sample.world)
     = Throw (MissingDependencyError
                {| md_originalError :=
                     map we_toString [module_not_found "bar"];
                   md_missingModules := ["bar"];
                   md_extra_missingModules := ["bar"] |}).
Proof.
  exact (buildPackage_missing_modules
           (env := Sample.bar_is_missing)
           Sample.request Sample.world _ _
           (Sample.failed_stats [module_not_found "bar"])
           _ [module_not_found "bar"] ["bar"]
           (compiler_yields_sample (Sample.needs ["bar"]))
           eq_refl eq_refl eq_refl eq_refl ltac:(discriminate)).
Defined.

(** Witness of C9: the compilation also emitted [stats.json]. *)
Lemma buildPackage_unrecognized_asset_witness :
  exists asset,
    In asset (surviving_assets
                [Sample.asset "main.bundle.js"; Sample.asset "stats.json"])
    /\ Regex.bundle (asset_name asset) = None
    /\ fst (buildPackage
              (env := Sample.emits_stats_json)
              Sample.request Sample.world)
       = Throw (UnexpectedBuildError (unrecognized_asset_message asset)).
Proof.
  apply (buildPackage_unrecognized_asset
           (env := Sample.emits_stats_json)
           Sample.request Sample.world _ _ _ _ _
           (compiler_yields_sample (Sample.always Sample.with_stats_json))
           eq_refl eq_refl (or_intror eq_refl) eq_refl).
  - intros asset [<-|[<-|[]]]; discriminate.
  - exists (Sample.asset "stats.json"). split; [|reflexivity].
    right. left. reflexivity.
Defined.

(** Witness of C10: a summary without an assets list. *)
Lemma buildPackage_without_assets_list_witness :
  exists result,
    fst (buildPackage
           (env := Sample.no_assets_list)
           Sample.request Sample.world) = Ok result
    /\ assets result = [].
Proof.
  apply (buildPackage_without_assets_list
           (env := Sample.no_assets_list)
           Sample.request Sample.world _ _ _ _
           (compiler_yields_sample (Sample.always Sample.without_assets_list))
           eq_refl eq_refl (or_intror eq_refl) eq_refl).
Defined.

Example runtime_and_license_are_left_out :
  fst (buildPackage (env := Sample.emits_runtime_and_license)
         Sample.request Sample.world)
  = Ok {| assets := [ {| as_name := "main"; as_type := "js";
                         as_size := 2%N; as_gzip := 2;
                         as_parse := None |} ];
          dependencySizes := None |}.
Proof. reflexivity. Qed.

Example retry_end_to_end :
  fst (buildPackageIgnoringMissingDeps
         (env := Sample.bar_is_missing)
         Sample.request Sample.world)
  = Ok {| ignoredMissingDependencies := Some ["bar"];
          cr_result :=
            {| assets := [ {| as_name := "main"; as_type := "js";
                              as_size := 2%N; as_gzip := 2;
                              as_parse := None |} ];
               dependencySizes := None |} |}.
Proof. reflexivity. Qed.

Example retry_refused_for_seven :
  fst (buildPackageIgnoringMissingDeps
         (env := Sample.seven_are_missing)
         Sample.request Sample.world)
  = Throw (MissingDependencyError
             (new_MissingDependencyError
                (map we_toString (map module_not_found Sample.seven))
                Sample.seven))
  /\ length (compileCalls
               (snd (buildPackageIgnoringMissingDeps
                       (env := Sample.seven_are_missing)
                       Sample.request Sample.world))) = 1.
Proof. split; reflexivity. Qed.

Example retry_telemetry_reads_two :
  last (telemetry
          (snd (buildPackageIgnoringMissingDeps
                  (env := Sample.bar_is_missing)
                  Sample.request Sample.world)))
  = Some (TBuildPackage "foo" true Sample.options 2 (Some ["bar"]) None).
Proof. reflexivity. Qed.


(** Witness of C5: the bundler fails on [bar] whatever the externals. *)
Lemma at_most_one_retry_witness :
  fst (buildPackageIgnoringMissingDeps
         (env := Sample.bar_never_resolves)
         Sample.request Sample.world)
  = Throw (MissingDependencyError
             (new_MissingDependencyError
                (map we_toString [module_not_found "bar"]) ["bar"]))
  /\ buildCalls
       (snd (buildPackageIgnoringMissingDeps
               (env := Sample.bar_never_resolves)
               Sample.request Sample.world))
     = [] ++ [Sample.request; with_externals Sample.request 3].
Proof.
  apply (proj2 (at_most_one_retry
                  (env := Sample.bar_never_resolves)
                  Sample.request Sample.world)
           _ _ _ 3 _ _ eq_refl eq_refl eq_refl eq_refl).
Defined.

(** Witness of C7: the retry for [bar] gets the new object at 3. *)
Lemma retry_copies_externals_witness :
  heap Sample.world !! 3 = None
  /\ exists o',
       heap (snd (buildPackageIgnoringMissingDeps
                    (env := Sample.bar_is_missing)
                    Sample.request Sample.world)) !! 3
       = Some (HExternals o')
       /\ heap Sample.world !! externalPackages o' = None.
Proof.
  apply (proj2 (proj2 (retry_copies_externals
                         (env := Sample.bar_is_missing)
                         Sample.request Sample.world))
           _ _ _ 3 _ eq_refl eq_refl eq_refl).
Defined.

(** * Further properties of the build *)

(** ** The classifier and the two patterns *)

Lemma span_not_slash_app run rest :
  slashes run = 0 -> segment_end rest ->
  Js.span_not_slash (run +:+ rest) = (run, rest).
Proof.
  intros Hr Hrest. induction run as [|c run IH].
  - change (EmptyString +:+ rest) with rest.
    destruct Hrest as [->|Hs]; [done|].
    destruct rest as [|d rest]; [done|].
    rewrite startsWith_slash in Hs.
    change (Js.span_not_slash (String d rest))
      with (if Js.is_slash d then (EmptyString, String d rest)
            else let '(run, rest0) := Js.span_not_slash rest in
                 (String d run, rest0)).
    unfold Js.is_slash. rewrite (Ascii.eqb_sym d), Hs. done.
  - change (slashes (String c run))
      with ((if Js.is_slash c then 1 else 0) + slashes run) in Hr.
    destruct (Js.is_slash c) eqn:Hc; [lia|].
    change (Js.span_not_slash (String c run +:+ rest))
      with (if Js.is_slash c then (EmptyString, String c (run +:+ rest))
            else let '(r1, r2) := Js.span_not_slash (run +:+ rest) in
                 (String c r1, r2)).
    rewrite Hc, IH by lia. done.
Qed.

Lemma string_length_app (a b : string) :
  String.length (a +:+ b) = String.length a + String.length b.
Proof.
  induction a as [|c a IH]; [done|].
  change (S (String.length (a +:+ b)) = S (String.length a + String.length b)).
  by rewrite IH.
Qed.

Lemma not_own_subpath s : strict_subpath s s = false.
Proof.
  unfold strict_subpath. destruct (Js.startsWith s (s +:+ "/")) eqn:H; [|done].
  apply startsWith_app in H as [r Hr].
  apply (f_equal String.length) in Hr.
  rewrite !string_length_app in Hr. simpl in Hr. lia.
Qed.

Lemma dot_plus_greedy_complete lit p post :
  one_line p = true -> Js.dot_plus_greedy lit (p +:+ lit +:+ post) <> None.
Proof.
  induction p as [|c p IH]; [done|]. intros Hp.
  rewrite one_line_cons in Hp. apply andb_true_iff in Hp as [Hc Hp].
  apply negb_true_iff in Hc.
  change (Js.dot_plus_greedy lit (String c p +:+ lit +:+ post))
    with (if Js.is_line_terminator c then None
          else match Js.dot_plus_greedy lit (p +:+ lit +:+ post) with
               | Some g => Some (String c g)
               | None => if Js.startsWith (p +:+ lit +:+ post) lit
                         then Some (String c EmptyString) else None
               end).
  rewrite Hc. destruct p as [|d p].
  - change (EmptyString +:+ lit +:+ post) with (lit +:+ post).
    destruct (Js.dot_plus_greedy lit (lit +:+ post)); [done|].
    unfold Js.startsWith. by rewrite strip_prefix_append.
  - specialize (IH Hp). by destruct (Js.dot_plus_greedy lit _).
Qed.

(** X1. The pattern of line 141 matches a message exactly when the
    message holds [Can't resolve '], then a non-empty run of characters
    other than line terminators, then [' in]. *)
Theorem cant_resolve_matches (s : string) :
  Regex.cant_resolve s <> None <->
  exists pre path post,
    s = pre +:+ "Can't resolve '" +:+ path +:+ "' in" +:+ post
    /\ one_line path = true.
Proof.
  split.
  - destruct (Regex.cant_resolve s) as [path|] eqn:H; [|done]. intros _.
    apply cant_resolve_sound in H as (pre & post & Hs & Hp). eauto.
  - intros (pre & path & post & -> & Hp). induction pre as [|c pre IH].
    + change (EmptyString +:+ "Can't resolve '" +:+ path +:+ "' in" +:+ post)
        with ("Can't resolve '" +:+ path +:+ "' in" +:+ post).
      pose proof (dot_plus_greedy_complete "' in" path post Hp) as Hg.
      change (Regex.cant_resolve
                ("Can't resolve '" +:+ path +:+ "' in" +:+ post))
        with (match Regex.cant_resolve_here
                      ("Can't resolve '" +:+ path +:+ "' in" +:+ post) with
              | Some g => Some g
              | None =>
                  Regex.cant_resolve
                    ("an't resolve '" +:+ path +:+ "' in" +:+ post)
              end).
      unfold Regex.cant_resolve_here. rewrite strip_prefix_append.
      by destruct (Js.dot_plus_greedy _ _).
    + change (Regex.cant_resolve
                (String c pre +:+ "Can't resolve '" +:+ path +:+ "' in"
                 +:+ post))
        with (match Regex.cant_resolve_here
                      (String c pre +:+ "Can't resolve '" +:+ path
                       +:+ "' in" +:+ post) with
              | Some g => Some g
              | None =>
                  Regex.cant_resolve
                    (pre +:+ "Can't resolve '" +:+ path +:+ "' in" +:+ post)
              end).
      by destruct (Regex.cant_resolve_here _).
Qed.

(** X2. The package name of a cited path (lines 152-166): a path
    [@scope/pkg] followed by nothing or by [/...] gives [@scope/pkg],
    and a path that does not begin with [@] gives its first segment, for
    non-empty segments without [/]. *)
Theorem missingModuleOf_package_name (e : WebpackError) :
  (forall scope pkg rest,
     cites ("@" +:+ scope +:+ "/" +:+ pkg +:+ rest) e ->
     scope <> EmptyString -> pkg <> EmptyString ->
     slashes scope = 0 -> slashes pkg = 0 -> segment_end rest ->
     missingModuleOf e = Ok ("@" +:+ scope +:+ "/" +:+ pkg))
  /\ (forall name rest,
        cites (name +:+ rest) e ->
        name <> EmptyString -> slashes name = 0 ->
        Js.startsWith name "@" = false -> segment_end rest ->
        missingModuleOf e = Ok name).
Proof.
  split.
  - intros scope pkg rest Hc Hs Hp Hs0 Hp0 Hrest.
    rewrite (missingModuleOf_cites _ _ Hc).
    change (Js.startsWith ("@" +:+ scope +:+ "/" +:+ pkg +:+ rest) "@")
      with true.
    change ("@" +:+ scope +:+ "/" +:+ pkg +:+ rest)
      with (String "@"%char (scope +:+ String "/"%char (pkg +:+ rest))).
    change (Regex.scoped (String "@" (scope +:+ String "/" (pkg +:+ rest))))
      with (match Regex.scoped_here
                    (String "@" (scope +:+ String "/" (pkg +:+ rest))) with
            | Some m => Some m
            | None => Regex.scoped (scope +:+ String "/" (pkg +:+ rest))
            end).
    unfold Regex.scoped_here.
    rewrite (span_not_slash_app scope (String "/" (pkg +:+ rest)) Hs0)
      by (right; reflexivity).
    destruct scope as [|a scope]; [done|].
    rewrite (span_not_slash_app pkg rest Hp0 Hrest).
    destruct pkg as [|b pkg]; [done|]. reflexivity.
  - intros name rest Hc Hn Hn0 Hat Hrest.
    rewrite (missingModuleOf_cites _ _ Hc).
    destruct name as [|c name]; [done|].
    rewrite startsWith_at_app, Hat.
    change (slashes (String c name))
      with ((if Js.is_slash c then 1 else 0) + slashes name) in Hn0.
    destruct (Js.is_slash c) eqn:Hsl; [lia|].
    change (Regex.segment (String c name +:+ rest))
      with (if Js.is_slash c then Regex.segment (name +:+ rest)
            else Some (fst (Js.span_not_slash (String c name +:+ rest)))).
    rewrite Hsl. rewrite (span_not_slash_app (String c name) rest).
    + done.
    + change (slashes (String c name))
        with ((if Js.is_slash c then 1 else 0) + slashes name).
      rewrite Hsl. lia.
    + done.
Qed.

(** X3. An error whose name is not [ModuleNotFoundError] has no part in
    the result of [_parseMissingModules], wherever it stands in the
    list (the filter of lines 132-134). *)
Theorem parseMissingModules_ignores_other_errors
    (pre post : list WebpackError) (e : WebpackError) :
  is_ModuleNotFoundError e = false ->
  _parseMissingModules (pre ++ e :: post) = _parseMissingModules (pre ++ post).
Proof.
  intros He. unfold _parseMissingModules.
  rewrite !List.filter_app. simpl. by rewrite He.
Qed.

Lemma map_throwing_Throw_first {A B} (f : A -> Outcome B) l e :
  map_throwing f l = Throw e ->
  exists pre x post,
    l = pre ++ x :: post /\ f x = Throw e
    /\ forall z, In z pre -> exists y, f z = Ok y.
Proof.
  intros H.
  destruct (map_throwing_first_failure f l)
    as [Hall|(pre & x & post & e' & Hl & Hx & Hpre & Hm)].
  - destruct (map_throwing_total f l Hall) as [ys Hys]. congruence.
  - exists pre, x, post. rewrite H in Hm. injection Hm as ->. auto.
Qed.

Lemma missingModuleOf_Throw e err :
  missingModuleOf e = Throw err ->
  err = UnexpectedBuildError no_file_path_message
  \/ err = UnexpectedBuildError no_package_name_message.
Proof.
  unfold missingModuleOf. destruct (Regex.cant_resolve _).
  - destruct (if Js.startsWith _ _ then _ else _); [done|].
    intros [= <-]. by right.
  - intros [= <-]. by left.
Qed.

(** X4. [_parseMissingModules] returns exactly when every
    module-not-found error of the list yields a package name; otherwise
    it throws the [UnexpectedBuildError] of the first module-not-found
    error that yields none, with one of the two messages of lines 147
    and 161. *)
Theorem parseMissingModules_outcome (errors : list WebpackError) :
  match _parseMissingModules errors with
  | Ok _ =>
      forall e, In e errors -> is_ModuleNotFoundError e = true ->
                exists name, missingModuleOf e = Ok name
  | Throw err =>
      (err = UnexpectedBuildError no_file_path_message
       \/ err = UnexpectedBuildError no_package_name_message)
      /\ exists pre e post,
           List.filter is_ModuleNotFoundError errors = pre ++ e :: post
           /\ missingModuleOf e = Throw err
           /\ forall z, In z pre -> exists name, missingModuleOf z = Ok name
  end.
Proof.
  rewrite parseMissingModules_unfold. unfold extracted_names.
  destruct (map_throwing missingModuleOf
              (List.filter is_ModuleNotFoundError errors))
    as [names|err] eqn:Hm.
  - intros e He Hk. apply (map_throwing_defined _ _ _ Hm).
    apply filter_In. auto.
  - apply map_throwing_Throw_first in Hm as (pre & x & post & Hl & Hx & Hpre).
    split; [by eapply missingModuleOf_Throw|]. eauto 6.
Qed.

Lemma parseMissingModules_head errors n names :
  extracted_names errors = Ok (n :: names) ->
  exists tl, _parseMissingModules errors = Ok (n :: tl).
Proof.
  intros Hn. rewrite parseMissingModules_unfold, Hn.
  unfold Js.array_from_set.
  change (fold_left Js.set_add (n :: names) [])
    with (fold_left Js.set_add names [n]).
  destruct (fold_set_add names [n] (NoDup_one n)) as (_ & _ & tl & ->).
  simpl. rewrite not_own_subpath. simpl. eauto.
Qed.

(** X5. The filter of lines 170-172 never removes the first detected
    name: when [_parseMissingModules] returns, its first name is the
    name extracted from the first module-not-found error. *)
Theorem parseMissingModules_keeps_first
    (errors : list WebpackError) (l names : list string) :
  _parseMissingModules errors = Ok l ->
  extracted_names errors = Ok names ->
  head l = head names.
Proof.
  rewrite parseMissingModules_unfold. intros H Hn. rewrite Hn in H.
  injection H as <-. destruct names as [|n names]; [done|].
  unfold Js.array_from_set.
  change (fold_left Js.set_add (n :: names) [])
    with (fold_left Js.set_add names [n]).
  destruct (fold_set_add names [n] (NoDup_one n)) as (_ & _ & tl & ->).
  simpl. by rewrite not_own_subpath.
Qed.

Lemma parseMissingModules_nonempty errors l e :
  _parseMissingModules errors = Ok l ->
  In e errors -> is_ModuleNotFoundError e = true -> l <> [].
Proof.
  intros Hp He Hk.
  pose proof Hp as Hp'. rewrite parseMissingModules_unfold in Hp'.
  destruct (extracted_names errors) as [names|] eqn:Hn; [|done].
  destruct (map_throwing_defined _ _ _ Hn e) as [name Hname].
  { apply filter_In. auto. }
  assert (Hin : In name names).
  { apply (extracted_names_In _ _ Hn). eauto. }
  destruct names as [|n names]; [done|].
  destruct (parseMissingModules_head _ _ _ Hn) as [tl Htl].
  rewrite Hp in Htl. by injection Htl as ->.
Qed.

(** X6. The pattern of line 289 matches an asset name exactly when
    the name holds [.bundle.] between two non-empty runs of characters
    other than line terminators, the second of which ends the name. *)
Theorem bundle_matches (s : string) :
  Regex.bundle s <> None <->
  exists pre name ext,
    s = pre +:+ name +:+ ".bundle." +:+ ext
    /\ one_line name = true /\ one_line ext = true.
Proof.
  split.
  - destruct (Regex.bundle s) as [[n e]|] eqn:H; [|done]. intros _.
    apply bundle_sound in H as (pre & Hs & Hn & He). eauto 6.
  - intros (pre & n & e & -> & Hn & He). by apply bundle_complete.
Qed.

(** X7. For an asset name without line terminators that the pattern
    of line 289 matches, the reported name and type give back the file
    name: it is the name, [.bundle.] and the type. *)
Theorem bundle_recomposes (s name ext : string) :
  no_line_terminator s = true ->
  Regex.bundle s = Some (name, ext) ->
  s = name +:+ ".bundle." +:+ ext.
Proof.
  revert name ext. induction s as [|c s IH]; intros n e Hs; [done|].
  rewrite bundle_unfold.
  destruct (Regex.bundle_here (String c s)) as [[n' e']|] eqn:Hh.
  - intros [= <- <-]. by apply bundle_here_sound in Hh as (? & _ & _).
  - intros Hb. exfalso. simpl in Hs. apply andb_true_iff in Hs as [Hc Hs].
    pose proof (IH _ _ Hs Hb) as ->.
    apply bundle_sound in Hb as (pre & _ & Hn & He).
    assert (Hn' : one_line (String c n) = true).
    { rewrite one_line_cons, Hc. simpl. by destruct n. }
    by apply (bundle_here_complete (String c n) e Hn' He).
Qed.

Section MoreFacts.

Context {env : Collaborators}.

(** ** Frames: what a step leaves alone *)

Lemma preserves_ret {A B} (f : World -> B) (x : A) : preserves f (ret x).
Proof. by intros w. Qed.

Lemma preserves_throw {A B} (f : World -> B) e : preserves f (@throw A e).
Proof. by intros w. Qed.

Lemma preserves_lift {A B} (f : World -> B) (o : Outcome A) :
  preserves f (lift o).
Proof. by intros w. Qed.

Lemma preserves_bind {A B C} (f : World -> C) (m : M A) (k : A -> M B) :
  preserves f m -> (forall x, preserves f (k x)) -> preserves f (bind m k).
Proof.
  intros Hm Hk w. unfold bind. specialize (Hm w).
  destruct (m w) as [[x|e] w1]; simpl in *; [|done].
  by rewrite Hk.
Qed.

Lemma build_events_app w ev :
  is_build_event ev = false ->
  build_events (set_telemetry (telemetry w ++ [ev]) w) = build_events w.
Proof.
  intros H. unfold build_events. simpl.
  rewrite List.filter_app. simpl. rewrite H. apply app_nil_r.
Qed.

Lemma preserves_classify {B} (f : World -> B) n errors js :
  preserves f (classify n errors js).
Proof.
  unfold classify. apply preserves_bind; [apply preserves_lift|].
  intros [|m l].
  - destruct (js_errors js) as [[|e es]|]; try apply preserves_throw.
    destruct (existsb _ _); apply preserves_throw.
  - destruct (only_module _ _); apply preserves_throw.
Qed.

(** [interpret] only adds telemetry of its steps. *)
Lemma interpret_frame a r w :
  heap (snd (interpret a r w)) = heap w
  /\ files (snd (interpret a r w)) = files w
  /\ compileCalls (snd (interpret a r w)) = compileCalls w
  /\ build_events (snd (interpret a r w)) = build_events w.
Proof.
  assert (Hrep : forall js w0,
    heap (snd (report a r js w0)) = heap w0
    /\ files (snd (report a r js w0)) = files w0
    /\ compileCalls (snd (report a r js w0)) = compileCalls w0
    /\ build_events (snd (report a r js w0)) = build_events w0).
  { intros js w0. unfold report, bind, lift.
    destruct (js_assets js) as [l|]; simpl.
    - destruct (map_throwing _ _); simpl; [|done].
      repeat split. by apply build_events_app.
    - repeat split. by apply build_events_app. }
  unfold interpret, bind, stats_toJson, stats_compilation_errors.
  destruct (stats r) as [st|]; simpl; [|done].
  destruct (toJson st) as [js|]; simpl.
  2:{ repeat split. by apply build_events_app. }
  set (w1 := set_telemetry _ w).
  assert (Hw1 : heap w1 = heap w /\ files w1 = files w
                /\ compileCalls w1 = compileCalls w
                /\ build_events w1 = build_events w).
  { repeat split. by apply build_events_app. }
  destruct Hw1 as (H1 & H2 & H3 & H4).
  assert (Hgoal : forall m : M BuildResult,
    (m = report a r js \/ exists e es, m = classify (bp_name a) (e :: es) js) ->
    heap (snd (m w1)) = heap w /\ files (snd (m w1)) = files w
    /\ compileCalls (snd (m w1)) = compileCalls w
    /\ build_events (snd (m w1)) = build_events w).
  { intros m [->|(e & es & ->)].
    - destruct (Hrep js w1) as (-> & -> & -> & ->). done.
    - rewrite (preserves_classify heap), (preserves_classify files),
        (preserves_classify compileCalls), (preserves_classify build_events).
      done. }
  destruct (error r); simpl;
    destruct (compilation_errors st) as [[|e es]|]; apply Hgoal; eauto.
Qed.

Lemma createEntryPoint_step a o w :
  createEntryPoint (bp_name a) (bp_installPath a) o w =
  match writeFileSync_error (fst (entry_file a o)) (snd (entry_file a o)) with
  | None => (Ok (fst (entry_file a o)), set_files (entry_file a o :: files w) w)
  | Some err => (Throw (EntryPointError (OfIOError err)), w)
  end.
Proof. reflexivity. Qed.

Lemma makeEntry_planned a w :
  makeEntry a w = write_entries a (planned_entries a) ∅ w.
Proof.
  unfold makeEntry, planned_entries.
  destruct (splitCustomImports (bp_options a)).
  - generalize (∅ : gmap string string). revert w.
    induction (default [] (customImports (bp_options a))) as [|i l IH];
      intros w entry; [done|].
    simpl. unfold bind. destruct (createEntryPoint _ _ _ w) as [[p|e] w1];
      [|done].
    apply IH.
  - simpl. unfold bind. by destruct (createEntryPoint _ _ _ w) as [[p|e] w1].
Qed.

Lemma set_files_same w : set_files (files w) w = w.
Proof. by destruct w. Qed.

Lemma write_entries_outcome a l : forall entry w,
  (Forall (fun ko => writable a (snd ko)) l ->
   write_entries a l entry w
   = (Ok (entry_map a l entry),
      set_files (rev (map (fun ko => entry_file a (snd ko)) l) ++ files w) w))
  /\ (forall pre ko post err,
        l = pre ++ ko :: post ->
        Forall (fun ko => writable a (snd ko)) pre ->
        writeFileSync_error (fst (entry_file a (snd ko)))
          (snd (entry_file a (snd ko))) = Some err ->
        write_entries a l entry w
        = (Throw (EntryPointError (OfIOError err)),
           set_files
             (rev (map (fun ko => entry_file a (snd ko)) pre) ++ files w) w)).
Proof.
  induction l as [|ko l IH]; intros entry w.
  - split.
    + intros _. simpl. by rewrite set_files_same.
    + intros [|? ?] ? ? ? H; discriminate H.
  - split.
    + intros Hall. apply Forall_cons in Hall as [Hko Hall].
      simpl. unfold bind. rewrite createEntryPoint_step.
      unfold writable in Hko. rewrite Hko.
      destruct (IH (<[fst ko := fst (entry_file a (snd ko))]> entry)
                  (set_files (entry_file a (snd ko) :: files w) w))
        as [IH1 _].
      rewrite (IH1 Hall). simpl. unfold set_files. simpl.
      by rewrite <- app_assoc.
    + intros pre ko' post err Hl Hpre Herr. simpl. unfold bind.
      rewrite createEntryPoint_step. destruct pre as [|k0 pre].
      * injection Hl as -> ->. rewrite Herr. simpl.
        by rewrite set_files_same.
      * injection Hl as -> ->. apply Forall_cons in Hpre as [Hko Hpre].
        unfold writable in Hko. rewrite Hko.
        destruct (IH (<[fst k0 := fst (entry_file a (snd k0))]> entry)
                    (set_files (entry_file a (snd k0) :: files w) w))
          as [_ IH2].
        rewrite (IH2 _ _ _ _ eq_refl Hpre Herr). simpl. unfold set_files.
        simpl. by rewrite <- app_assoc.
Qed.

Lemma preserves_createEntryPoint {B} (f : World -> B) n p o :
  (forall fs w, f (set_files fs w) = f w) ->
  preserves f (createEntryPoint n p o).
Proof.
  intros Hf w. unfold createEntryPoint.
  destruct (writeFileSync_error _ _); [done|]. apply Hf.
Qed.

Lemma preserves_write_entries {B} (f : World -> B) a l :
  (forall fs w, f (set_files fs w) = f w) ->
  forall entry, preserves f (write_entries a l entry).
Proof.
  intros Hf. induction l as [|ko l IH]; intros entry; simpl.
  - apply preserves_ret.
  - apply preserves_bind; [by apply preserves_createEntryPoint|].
    intros p. apply IH.
Qed.

Lemma compilePackage_build_events c w :
  build_events (snd (compilePackage c w)) = build_events w.
Proof.
  unfold build_events, compilePackage. simpl.
  rewrite List.filter_app. simpl. apply app_nil_r.
Qed.

Lemma buildPackage_after_entries a w entry w1 :
  splitCustomImports (bp_options a) && no_customImports (bp_options a)
  = false ->
  makeEntry a (enters a w) = (Ok entry, w1) ->
  compiler_yields a w (webpack_run (compileArgs a entry) w1)
    (snd (compilePackage (compileArgs a entry) w1))
  /\ compileCalls (snd (buildPackage a w))
     = compileCalls w1 ++ [compileArgs a entry]
  /\ files (snd (buildPackage a w)) = files w1
  /\ build_events (snd (buildPackage a w)) = build_events w1.
Proof.
  intros Hgo He.
  assert (Hy : compiler_yields a w (webpack_run (compileArgs a entry) w1)
                 (snd (compilePackage (compileArgs a entry) w1))).
  { split; [done|]. by exists entry, w1. }
  split; [done|]. rewrite (buildPackage_reaches _ _ _ _ Hy).
  destruct (interpret_frame a (webpack_run (compileArgs a entry) w1)
              (snd (compilePackage (compileArgs a entry) w1)))
    as (_ & -> & -> & ->).
  repeat split. apply compilePackage_build_events.
Qed.


(** ** The entry points *)


(** X9. When the write of an entry point fails, [buildPackage] throws
    an [EntryPointError] that wraps the error of the write: the entry
    points before it stay written, the later ones are not attempted and
    the compiler is not invoked. *)
Theorem buildPackage_entry_write_fails
    (a : BuildPackageArgs) (w : World) pre ko post err :
  splitCustomImports (bp_options a) && no_customImports (bp_options a)
  = false ->
  planned_entries a = pre ++ ko :: post ->
  Forall (fun ko => writable a (snd ko)) pre ->
  writeFileSync_error (fst (entry_file a (snd ko)))
    (snd (entry_file a (snd ko))) = Some err ->
  fst (buildPackage a w) = Throw (EntryPointError (OfIOError err))
  /\ files (snd (buildPackage a w))
     = rev (map (fun ko => entry_file a (snd ko)) pre) ++ files w
  /\ compileCalls (snd (buildPackage a w)) = compileCalls w.
Proof.
  intros Hgo Hl Hpre Herr.
  pose proof (proj2 (write_entries_outcome a (planned_entries a) ∅
                       (enters a w)) _ _ _ _ Hl Hpre Herr) as He.
  rewrite <- makeEntry_planned in He.
  assert (Hb : buildPackage a w
               = (Throw (EntryPointError (OfIOError err)),
                  set_files
                    (rev (map (fun ko => entry_file a (snd ko)) pre)
                     ++ files w) (enters a w))).
  { rewrite buildPackage_enters, Hgo. unfold bind at 1. by rewrite He. }
  by rewrite Hb.
Qed.

(** ** Compiler invocations and telemetry of one build *)

(** One build invokes the compiler at most once, with the arguments of
    the request, and records no build event. *)
Lemma buildPackage_compile_frame
    (a : BuildPackageArgs) (w : World) :
  exists calls,
    compileCalls (snd (buildPackage a w)) = compileCalls w ++ calls
    /\ length calls <= 1
    /\ Forall (compiles_request a) calls
    /\ build_events (snd (buildPackage a w)) = build_events w.
Proof.
  destruct (splitCustomImports (bp_options a)
            && no_customImports (bp_options a)) eqn:Hgo.
  { exists []. rewrite buildPackage_enters, Hgo, app_nil_r.
    split; [done|]. split; [simpl; lia|]. split; [constructor|done]. }
  pose proof (preserves_write_entries compileCalls a (planned_entries a)
                (fun _ _ => eq_refl) ∅ (enters a w)) as Hc1.
  pose proof (preserves_write_entries build_events a (planned_entries a)
                (fun _ _ => eq_refl) ∅ (enters a w)) as Hb1.
  rewrite <- makeEntry_planned in Hc1, Hb1.
  destruct (makeEntry a (enters a w)) as [[entry|e] w1] eqn:He;
    simpl in Hc1, Hb1.
  - destruct (buildPackage_after_entries a w entry w1 Hgo He)
      as (_ & Hc & _ & Hb).
    exists [compileArgs a entry]. rewrite Hc, Hb, Hc1, Hb1.
    split; [done|]. split; [simpl; lia|]. split; [|done].
    constructor; [|constructor]. by repeat split.
  - exists []. rewrite buildPackage_enters, Hgo. unfold bind at 1 3.
    rewrite He, app_nil_r. simpl.
    split; [done|]. split; [lia|]. split; [constructor|done].
Qed.

(** X10. Every call of [buildPackage] invokes the compiler at most
    once, and an invocation carries the name, the externals, the debug
    flag and the minifier of the request. *)
Theorem buildPackage_compiles_at_most_once
    (a : BuildPackageArgs) (w : World) :
  exists calls,
    compileCalls (snd (buildPackage a w)) = compileCalls w ++ calls
    /\ length calls <= 1
    /\ Forall (compiles_request a) calls.
Proof.
  destruct (buildPackage_compile_frame a w) as (calls & H1 & H2 & H3 & _).
  by exists calls.
Qed.





(** ** Failures of a compilation *)

Lemma fails_with_ret {A} P (x : A) : fails_with P (ret x).
Proof. by intros w e. Qed.

Lemma fails_with_throw {A} (P : JsError -> Prop) e :
  P e -> fails_with P (@throw A e).
Proof. by intros He w e' [= <-]. Qed.

Lemma fails_with_bind {A B} P (m : M A) (k : A -> M B) :
  fails_with P m -> (forall x, fails_with P (k x)) -> fails_with P (bind m k).
Proof.
  intros Hm Hk w e. unfold bind. specialize (Hm w).
  destruct (m w) as [[x|e0] w1]; simpl in *.
  - apply Hk.
  - intros [= <-]. by apply Hm.
Qed.

Lemma fails_with_createEntryPoint n p o name :
  fails_with (proper_missing_dependency name) (createEntryPoint n p o).
Proof.
  intros w e. unfold createEntryPoint.
  destruct (writeFileSync_error _ _); [|done]. by intros [= <-].
Qed.

Lemma fails_with_write_entries a l name : forall entry,
  fails_with (proper_missing_dependency name) (write_entries a l entry).
Proof.
  induction l as [|ko l IH]; intros entry; simpl.
  - apply fails_with_ret.
  - apply fails_with_bind; [apply fails_with_createEntryPoint|].
    intros p. apply IH.
Qed.

Lemma only_module_spec l name :
  only_module l name = true <-> l = [name].
Proof.
  unfold only_module. destruct l as [|m [|m' l]]; try by split.
  destruct (String.eqb_spec m name) as [->|Hne]; split; try done.
  intros [= ->]. done.
Qed.

Lemma fails_with_classify a errors js :
  fails_with (proper_missing_dependency (bp_name a))
    (classify (bp_name a) errors js).
Proof.
  intros w e. unfold classify, bind, lift, throw.
  destruct (_parseMissingModules errors) as [l|err] eqn:Hp;
    cbn -[existsb only_module].
  - destruct l as [|m l].
    + destruct (js_errors js) as [[|x xs]|];
        try (cbn -[existsb]; by intros [= <-]).
      destruct (existsb _ (x :: xs)); cbn -[existsb]; by intros [= <-].
    + destruct (only_module (m :: l) (bp_name a)) eqn:Ho;
        cbn -[only_module]; intros [= <-]; [done|].
      split; [done|]. split.
      { by eapply parseMissingModules_NoDup. }
      split; [|done]. intros H. simpl in H. apply only_module_spec in H.
      congruence.
  - intros [= <-]. by apply parseMissingModules_Throw in Hp as [message ->].
Qed.

Lemma fails_with_report a r js name :
  fails_with (proper_missing_dependency name) (report a r js).
Proof.
  intros w e. unfold report, bind, lift, throw, ret, Telemetry.
  destruct (js_assets js) as [l|]; simpl; [|done].
  destruct (map_throwing _ _) as [ys|err] eqn:Hm; simpl; [done|].
  intros [= <-]. apply map_throwing_Throw in Hm as (x & _ & Hx).
  revert Hx. unfold getAssetStats.
  destruct (memoryFileSystem r _); [|by intros [= <-]].
  destruct (Regex.bundle _) as [[? ?]|]; [done|]. by intros [= <-].
Qed.

Lemma fails_with_interpret a r :
  fails_with (proper_missing_dependency (bp_name a)) (interpret a r).
Proof.
  intros w e.
  unfold interpret, bind, stats_toJson, stats_compilation_errors, throw, ret,
    Telemetry.
  destruct (stats r) as [st|]; simpl; [|by intros [= <-]].
  destruct (toJson st) as [js|]; simpl; [|by intros [= <-]].
  assert (H : forall m : M BuildResult,
    (m = report a r js \/ exists x xs, m = classify (bp_name a) (x :: xs) js) ->
    forall w0, fst (m w0) = Throw e ->
    proper_missing_dependency (bp_name a) e).
  { intros m [->|(x & xs & ->)] w0.
    - apply fails_with_report.
    - apply fails_with_classify. }
  destruct (error r); simpl;
    destruct (compilation_errors st) as [[|x xs]|]; apply H; eauto.
Qed.

(** A [MissingDependencyError] of [buildPackage] is a proper one. *)
Lemma buildPackage_fails_properly a :
  fails_with (proper_missing_dependency (bp_name a)) (buildPackage a).
Proof.
  intros w e. rewrite buildPackage_enters.
  destruct (_ && _); [done|].
  apply (fails_with_bind (proper_missing_dependency (bp_name a))
           (makeEntry a)
           (fun entry => let* r := compilePackage (compileArgs a entry) in
                         interpret a r)).
  - intros w0 e0. rewrite makeEntry_planned. apply fails_with_write_entries.
  - intros entry. apply fails_with_bind.
    + by intros w0 e0.
    + intros r. apply fails_with_interpret.
Qed.

(** X12. When the compilation has a module-not-found error among its
    errors, [buildPackage] fails with an [EntryPointError], a
    [MissingDependencyError] or an [UnexpectedBuildError], whatever the
    other errors and the stats summary say: the branches of lines
    264-278 are not reached. *)
Theorem buildPackage_module_not_found a w r w' st js errors e :
  compiler_yields a w r w' ->
  stats r = Some st -> toJson st = Some js ->
  compilation_errors st = Some errors ->
  In e errors -> is_ModuleNotFoundError e = true ->
  exists err, fst (buildPackage a w) = Throw err /\ resolution_failure err.
Proof.
  intros Hy Hs Hj He Hin Hk.
  rewrite (buildPackage_reaches _ _ _ _ Hy).
  rewrite (interpret_with_stats _ _ _ _ _ Hs Hj), He.
  destruct errors as [|e0 es]; [done|].
  unfold classify, bind, lift.
  destruct (_parseMissingModules (e0 :: es)) as [l|err] eqn:Hp.
  - pose proof (parseMissingModules_nonempty _ _ _ Hp Hin Hk) as Hne.
    destruct l as [|m l]; [done|].
    destruct (only_module (m :: l) (bp_name a));
      (eexists; split; [reflexivity|exact I]).
  - apply parseMissingModules_Throw in Hp as [message ->].
    eexists; split; [reflexivity|exact I].
Qed.

(** X13. A [MissingDependencyError] thrown by [buildPackage] names at
    least one module, names none twice, is not the package alone, and
    carries the same list as [extra.missingModules]. *)
Theorem buildPackage_missing_dependency
    (a : BuildPackageArgs) (w : World) (md : MissingDependency) :
  fst (buildPackage a w) = Throw (MissingDependencyError md) ->
  md_missingModules md <> []
  /\ List.NoDup (md_missingModules md)
  /\ md_missingModules md <> [bp_name a]
  /\ md_extra_missingModules md = md_missingModules md.
Proof. intros H. exact (buildPackage_fails_properly a w _ H). Qed.

(** X14. When the compilation has errors, none of them a
    module-not-found error, [buildPackage] fails by the error strings of
    the stats summary: a [CLIBuildError] with them when one mentions
    [Unexpected character '#'], a [BuildError] with them otherwise, and
    the [UnexpectedBuildError] of line 275 when there is none. *)
Theorem buildPackage_other_errors a w r w' st js e es :
  compiler_yields a w r w' ->
  stats r = Some st -> toJson st = Some js ->
  compilation_errors st = Some (e :: es) ->
  (forall x, In x (e :: es) -> is_ModuleNotFoundError x = false) ->
  fst (buildPackage a w) =
  match js_errors js with
  | Some (m :: ms) =>
      if existsb mentions_unexpected_hash (m :: ms)
      then Throw (CLIBuildError (m :: ms))
      else Throw (BuildError (OfMessages (m :: ms)))
  | _ =>
      Throw (UnexpectedBuildError
               "The webpack stats object was unexpectedly empty")
  end.
Proof.
  intros Hy Hs Hj He Hno.
  rewrite (buildPackage_reaches _ _ _ _ Hy).
  rewrite (interpret_with_stats _ _ _ _ _ Hs Hj), He.
  assert (Hp : _parseMissingModules (e :: es) = Ok []).
  { unfold _parseMissingModules.
    assert (Hf : List.filter is_ModuleNotFoundError (e :: es) = []).
    { clear He. induction (e :: es) as [|x l IH]; [done|]. simpl.
      rewrite (Hno x) by by left. apply IH. intros; apply Hno. by right. }
    by rewrite Hf. }
  unfold classify, bind, lift. rewrite Hp.
  destruct (js_errors js) as [[|m ms]|]; try done.
  change (existsb (fun err => Js.includes err "Unexpected character '#'")
            (m :: ms))
    with (existsb mentions_unexpected_hash (m :: ms)).
  by destruct (existsb mentions_unexpected_hash (m :: ms)).
Qed.

(** ** The report *)

Lemma map_throwing_Forall2 {A B} (f : A -> Outcome B) l ys :
  map_throwing f l = Ok ys -> Forall2 (fun x y => f x = Ok y) l ys.
Proof.
  revert ys. induction l as [|x l IH]; simpl; intros ys.
  - intros [= <-]. constructor.
  - destruct (f x) as [y|] eqn:Hx; [|done].
    destruct (map_throwing f l) as [ys0|]; [|done].
    intros [= <-]. constructor; auto.
Qed.

Lemma getAssetStats_reports o r asset s :
  getAssetStats o r asset = Ok s -> reports o r asset s.
Proof.
  unfold getAssetStats, reports.
  destruct (memoryFileSystem r _) as [contents|] eqn:Hm; [|done].
  destruct (Regex.bundle (asset_name asset)) as [[n e]|]; [|done].
  intros [= <-]. simpl. eauto 6.
Qed.

Lemma surviving_assets_In l asset :
  In asset (surviving_assets l) <->
  In asset l
  /\ Js.array_includes (chunkNames asset) "runtime" = false
  /\ Js.endsWith (asset_name asset) "LICENSE.txt" = false.
Proof.
  unfold surviving_assets. rewrite !filter_In, !negb_true_iff. tauto.
Qed.

(** X15. A compilation without errors whose surviving assets are all
    emitted and named [<name>.bundle.<type>] makes [buildPackage]
    return one asset stat per surviving asset, in order, each with the
    size of the asset, the gzip size and the parse time (when asked for)
    of its bundle, and the name and type of its file name; the
    dependency sizes are there exactly when asked for. The surviving
    assets are those outside the [runtime] chunk whose name does not end
    in [LICENSE.txt]. *)
Theorem buildPackage_report a w r w' st js l :
  compiler_yields a w r w' ->
  stats r = Some st -> toJson st = Some js ->
  no_compilation_errors st ->
  js_assets js = Some l ->
  assets_emitted r (surviving_assets l) ->
  Forall (fun asset => Regex.bundle (asset_name asset) <> None)
    (surviving_assets l) ->
  exists stats,
    fst (buildPackage a w)
    = Ok {| assets := stats;
            dependencySizes :=
              if includeDependencySizes (bp_options a)
              then Some (getDependencySizes (bp_name a) js
                           (minifier (bp_options a)))
              else None |}
    /\ Forall2 (reports (bp_options a) r) (surviving_assets l) stats
    /\ forall asset,
         In asset (surviving_assets l) <->
         In asset l
         /\ Js.array_includes (chunkNames asset) "runtime" = false
         /\ Js.endsWith (asset_name asset) "LICENSE.txt" = false.
Proof.
  intros Hy Hs Hj Hne Ha Hem Hb.
  rewrite (buildPackage_reaches _ _ _ _ Hy).
  rewrite (interpret_with_stats _ _ _ _ _ Hs Hj).
  assert (Hrep : forall w0,
    match compilation_errors st with
    | Some (e :: es) => classify (bp_name a) (e :: es) js
    | _ => report a r js
    end w0 = report a r js w0).
  { intros w0. by destruct Hne as [-> | ->]. }
  rewrite Hrep. unfold report, bind, lift. rewrite Ha.
  destruct (map_throwing_total (getAssetStats (bp_options a) r)
              (surviving_assets l)) as [stats Hm].
  { intros asset Hin.
    pose proof (getAssetStats_outcome (bp_options a) r asset (Hem _ Hin))
      as H.
    rewrite Forall_forall in Hb. specialize (Hb asset).
    destruct (Regex.bundle (asset_name asset)); [exact H|].
    exfalso. apply Hb; [by apply list_elem_of_In|done]. }
  rewrite Hm. simpl. exists stats. split; [done|]. split.
  - apply map_throwing_Forall2 in Hm.
    eapply Forall2_impl; [exact Hm|]. intros asset s.
    apply getAssetStats_reports.
  - apply surviving_assets_In.
Qed.

(** ** The retry controller *)

Lemma widen_externals_frame e missing w :
  compileCalls (snd (widen_externals e missing w)) = compileCalls w
  /\ telemetry (snd (widen_externals e missing w)) = telemetry w
  /\ files (snd (widen_externals e missing w)) = files w.
Proof.
  unfold widen_externals.
  destruct (heap w !! e) as [[|o]|]; try done.
  by destruct (heap w !! externalPackages o) as [[|]|].
Qed.

(** X16. The externals of the retry (lines 360-363): when the caller's
    externals object and its list are there, the copy is a new object
    with the other properties of the caller's object and a new list,
    the caller's list followed by the missing names, and the caller's
    object and list stay as they were; otherwise the copy fails with a
    [TypeError] and the world is unchanged. *)
Theorem widen_externals_outcome (e : nat) (missing : list string)
    (w : World) :
  match widen_externals e missing w with
  | (Ok e', w') =>
      exists o o' packages,
        heap w !! e = Some (HExternals o)
        /\ externals_list w e = Some packages
        /\ heap w !! e' = None
        /\ heap w' !! e' = Some (HExternals o')
        /\ otherProps o' = otherProps o
        /\ heap w !! externalPackages o' = None
        /\ externals_list w' e' = Some (packages ++ missing)
        /\ externals_list w' e = Some packages
  | (Throw err, w') =>
      externals_list w e = None /\ w' = w
      /\ exists message, err = TypeError message
  end.
Proof.
  unfold widen_externals, externals_list.
  destruct (heap w !! e) as [[|o]|] eqn:He; try (by eauto).
  destruct (heap w !! externalPackages o) as [[packages|]|] eqn:Hp;
    try (by eauto).
  unfold bind, alloc, set_heap. simpl.
  pose proof (lookup_lt_Some _ _ _ He) as Hlt.
  pose proof (lookup_lt_Some _ _ _ Hp) as Hlt'.
  exists o, {| externalPackages := length (heap w);
               otherProps := otherProps o |}, packages.
  rewrite length_app. simpl.
  assert (Hnew : ((heap w ++ [HArray (packages ++ missing)])
                  ++ [HExternals {| externalPackages := length (heap w);
                                    otherProps := otherProps o |}])
                 !! (length (heap w) + 1)
                 = Some (HExternals {| externalPackages := length (heap w);
                                       otherProps := otherProps o |})).
  { rewrite lookup_app_r by (rewrite length_app; simpl; lia).
    rewrite length_app. simpl. by rewrite Nat.sub_diag. }
  assert (Harr : ((heap w ++ [HArray (packages ++ missing)])
                  ++ [HExternals {| externalPackages := length (heap w);
                                    otherProps := otherProps o |}])
                 !! length (heap w)
                 = Some (HArray (packages ++ missing))).
  { rewrite <- app_assoc, lookup_app_r by lia. by rewrite Nat.sub_diag. }
  split; [done|]. split; [done|]. split.
  { apply lookup_ge_None. lia. }
  split; [exact Hnew|]. split; [done|]. split.
  { apply lookup_ge_None. simpl. lia. }
  split.
  { rewrite Hnew. simpl. by rewrite Harr. }
  rewrite <- app_assoc.
  rewrite (lookup_app_l_Some _ _ _ _ He). simpl.
  by rewrite (lookup_app_l_Some _ _ _ _ Hp).
Qed.


(** X18. A first build that fails with anything but a
    [MissingDependencyError] is not retried: the controller throws the
    same error after the one invocation, records the failure with build
    iteration 2 and the error, and allocates no object. *)
Theorem controller_rethrows
    (a : BuildPackageArgs) (w w1 : World) (e : JsError) :
  buildPackage a w = (Throw e, w1) ->
  (forall md, e <> MissingDependencyError md) ->
  fst (buildPackageIgnoringMissingDeps a w) = Throw e
  /\ buildCalls (snd (buildPackageIgnoringMissingDeps a w))
     = buildCalls w ++ [a]
  /\ telemetry (snd (buildPackageIgnoringMissingDeps a w))
     = telemetry w1
       ++ [TBuildPackage (bp_name a) false (bp_options a) 2 None (Some e)]
  /\ heap (snd (buildPackageIgnoringMissingDeps a w)) = heap w.
Proof.
  intros Hb Hne.
  pose proof (buildPackage_objects a w) as [Hheap Hcalls].
  rewrite Hb in Hheap, Hcalls. simpl in Hheap, Hcalls.
  rewrite controller_unfold, Hb.
  assert (Hr : retry_allowed e = None).
  { destruct (retry_allowed e) as [md|] eqn:Hr; [|done].
    apply retry_allowed_Some in Hr as (-> & _). by destruct (Hne md). }
  rewrite Hr. done.
Qed.

(** X19. The build events of a call of the controller: one success
    event with iteration 1 when the first build returns; one failure
    event with iteration 2 and the error when the failure is not
    retried; one success event with iteration 2 and the missing modules
    when the retry returns; and none at all when the retry, or the copy
    of the externals, throws. *)
Theorem controller_build_events (a : BuildPackageArgs) (w : World) :
  build_events (snd (buildPackageIgnoringMissingDeps a w))
  = build_events w ++
    match fst (buildPackage a w) with
    | Ok _ => [TBuildPackage (bp_name a) true (bp_options a) 1 None None]
    | Throw e =>
        match retry_allowed e with
        | None =>
            [TBuildPackage (bp_name a) false (bp_options a) 2 None (Some e)]
        | Some md =>
            match fst (buildPackageIgnoringMissingDeps a w) with
            | Ok _ =>
                [TBuildPackage (bp_name a) true (bp_options a) 2
                   (Some (md_missingModules md)) None]
            | Throw _ => []
            end
        end
    end.
Proof.
  rewrite controller_unfold.
  destruct (buildPackage_compile_frame a w) as (_ & _ & _ & _ & Hb1).
  pose proof (buildPackage_failure a w) as Hco.
  unfold build_events in *.
  destruct (buildPackage a w) as [[res|e] w1]; simpl in Hb1, Hco; simpl.
  { by rewrite List.filter_app, Hb1. }
  destruct (retry_allowed e) as [md|] eqn:Hr; simpl.
  2:{ by rewrite List.filter_app, Hb1. }
  apply retry_allowed_Some in Hr as (-> & _ & _).
  specialize (Hco _ eq_refl). simpl in Hco.
  destruct (widen_externals_frame (bp_externals a)
              (md_extra_missingModules md) w1) as (_ & Hw & _).
  destruct (widen_externals _ _ w1) as [[e1|e1] w2]; simpl in Hw; simpl.
  2:{ by rewrite Hw, Hb1, app_nil_r. }
  destruct (buildPackage_compile_frame (with_externals a e1) w2)
    as (_ & _ & _ & _ & Hb2).
  unfold build_events in Hb2.
  destruct (buildPackage (with_externals a e1) w2) as [[res|e3] w3];
    simpl in Hb2; simpl.
  - by rewrite List.filter_app, Hb2, Hw, Hb1, Hco.
  - by rewrite Hb2, Hw, Hb1, app_nil_r.
Qed.

(** X20. A call of the controller invokes the compiler at most twice,
    each time with the name, the debug flag and the minifier of the
    request. *)
Theorem controller_compiles_at_most_twice
    (a : BuildPackageArgs) (w : World) :
  exists calls,
    compileCalls (snd (buildPackageIgnoringMissingDeps a w))
    = compileCalls w ++ calls
    /\ length calls <= 2
    /\ Forall (fun c => cp_name c = bp_name a
                        /\ cp_debug c = debug (bp_options a)
                        /\ cp_minifier c = minifier (bp_options a)) calls.
Proof.
  rewrite controller_unfold.
  destruct (buildPackage_compile_frame a w)
    as (c1 & Hc1 & Hl1 & Hf1 & _).
  assert (Hf1' : Forall (fun c => cp_name c = bp_name a
                                  /\ cp_debug c = debug (bp_options a)
                                  /\ cp_minifier c = minifier (bp_options a))
                   c1).
  { eapply Forall_impl; [exact Hf1|]. by intros c (? & _ & ? & ?). }
  destruct (buildPackage a w) as [[res|e] w1]; simpl in Hc1.
  { exists c1. split; [done|]. split; [lia|done]. }
  destruct (retry_allowed e) as [md|].
  2:{ exists c1. split; [done|]. split; [lia|done]. }
  destruct (widen_externals_frame (bp_externals a)
              (md_extra_missingModules md) w1) as (Hw & _ & _).
  destruct (widen_externals _ _ w1) as [[e1|e1] w2]; simpl in Hw.
  2:{ exists c1. simpl. rewrite Hw. split; [done|]. split; [lia|done]. }
  destruct (buildPackage_compile_frame (with_externals a e1) w2)
    as (c2 & Hc2 & Hl2 & Hf2 & _).
  exists (c1 ++ c2).
  assert (Hf : Forall (fun c => cp_name c = bp_name a
                                /\ cp_debug c = debug (bp_options a)
                                /\ cp_minifier c = minifier (bp_options a))
                 (c1 ++ c2)).
  { apply Forall_app. split; [done|].
    eapply Forall_impl; [exact Hf2|]. by intros c (? & _ & ? & ?). }
  destruct (buildPackage (with_externals a e1) w2) as [[res|e3] w3];
    simpl in *; rewrite Hc2, Hw, Hc1, <- app_assoc, length_app;
    (split; [done|]); (split; [lia|done]).
Qed.

End MoreFacts.

(** ** The further properties at sample inputs *)

(** Witness of X2: a deep import of a scoped package. *)
Lemma missingModuleOf_package_name_witness :
  missingModuleOf (module_not_found "@babel/runtime/helpers/create")
  = Ok "@babel/runtime".
Proof.
  apply (proj1 (missingModuleOf_package_name
                  (module_not_found "@babel/runtime/helpers/create"))
           "babel" "runtime" "/helpers/create").
  - split; reflexivity.
  - discriminate.
  - discriminate.
  - reflexivity.
  - reflexivity.
  - right. reflexivity.
Defined.

(** Witness of X3: a parse error between two module-not-found errors. *)
Lemma parseMissingModules_ignores_other_errors_witness :
  _parseMissingModules
    ([module_not_found "bar"]
     ++ Sample.syntax_error :: [module_not_found "baz/lib"])
  = _parseMissingModules
      ([module_not_found "bar"] ++ [module_not_found "baz/lib"]).
Proof.
  apply (parseMissingModules_ignores_other_errors
           [module_not_found "bar"] [module_not_found "baz/lib"]
           Sample.syntax_error).
  reflexivity.
Defined.

(** Witness of X5: a package cited three times. *)
Lemma parseMissingModules_keeps_first_witness :
  head ["lodash"] = head ["lodash"; "lodash"; "lodash"].
Proof.
  apply (parseMissingModules_keeps_first
           [module_not_found "lodash/get"; module_not_found "lodash";
            module_not_found "lodash/get"]
           ["lodash"] ["lodash"; "lodash"; "lodash"]); reflexivity.
Defined.

(** Witness of X7: the bundle of the main entry. *)
Lemma bundle_recomposes_witness :
  "main.bundle.js" = "main" +:+ ".bundle." +:+ "js".
Proof.
  apply (bundle_recomposes "main.bundle.js" "main" "js"); reflexivity.
Defined.


(** Witness of X9: the disk refuses the second entry point. *)
Lemma buildPackage_entry_write_fails_witness :
  fst (buildPackage (env := Sample.refuses "/tmp/foo/filter")
         Sample.imports_request Sample.world)
  = Throw (EntryPointError (OfIOError "EACCES: permission denied"))
  /\ files (snd (buildPackage (env := Sample.refuses "/tmp/foo/filter")
                   Sample.imports_request Sample.world))
     = rev [("/tmp/foo/map",
             importStatement "foo"
               {| esm := true; ce_customImports := Some ["map"];
                  entryFilename := Some "map" |})] ++ []
  /\ compileCalls (snd (buildPackage (env := Sample.refuses "/tmp/foo/filter")
                          Sample.imports_request Sample.world))
     = [].
Proof.
  apply (buildPackage_entry_write_fails
           (env := Sample.refuses "/tmp/foo/filter")
           Sample.imports_request Sample.world
           [("map", {| esm := true; ce_customImports := Some ["map"];
                       entryFilename := Some "map" |})]
           ("filter", {| esm := true; ce_customImports := Some ["filter"];
                         entryFilename := Some "filter" |})
           [] "EACCES: permission denied" eq_refl eq_refl).
  - repeat constructor.
  - reflexivity.
Defined.

(** Witness of X12: the bundler cannot resolve [bar]. *)
Lemma buildPackage_module_not_found_witness :
  exists err,
    fst (buildPackage (env := Sample.bar_is_missing)
           Sample.request Sample.world) = Throw err
    /\ resolution_failure err.
Proof.
  apply (buildPackage_module_not_found
           (env := Sample.bar_is_missing)
           Sample.request Sample.world _ _
           (Sample.failed_stats [module_not_found "bar"])
           _ [module_not_found "bar"] (module_not_found "bar")
           (compiler_yields_sample (Sample.needs ["bar"]))
           eq_refl eq_refl eq_refl (or_introl eq_refl) eq_refl).
Defined.

(** Witness of X13: the bundler cannot resolve [bar]. *)
Lemma buildPackage_missing_dependency_witness :
  ["bar"] <> [] /\ List.NoDup ["bar"] /\ ["bar"] <> ["foo"]
  /\ ["bar"] = ["bar"].
Proof.
  apply (buildPackage_missing_dependency
           (env := Sample.bar_is_missing) Sample.request Sample.world
           (new_MissingDependencyError
              (map we_toString [module_not_found "bar"]) ["bar"])).
  reflexivity.
Defined.

(** Witness of X14: a source file that begins with a shebang line. *)
Lemma buildPackage_other_errors_witness :
  fst (buildPackage (env := Sample.shebang) Sample.request Sample.world)
  = Throw (CLIBuildError
             ["Module parse failed: Unexpected character '#' (1:0)"]).
Proof.
  apply (buildPackage_other_errors (env := Sample.shebang)
           Sample.request Sample.world _ _
           (Sample.failed_stats [Sample.syntax_error]) _
           Sample.syntax_error []
           (compiler_yields_sample
              (Sample.always
                 (Sample.compiled
                    (Sample.failed_stats [Sample.syntax_error]) [])))
           eq_refl eq_refl eq_refl).
  intros x [<-|[]]. reflexivity.
Defined.

(** Witness of X15: the runtime chunk and the license file are left out. *)
Lemma buildPackage_report_witness :
  exists stats,
    fst (buildPackage (env := Sample.emits_runtime_and_license)
           Sample.request Sample.world)
    = Ok {| assets := stats; dependencySizes := None |}
    /\ Forall2 (reports (env := Sample.emits_runtime_and_license)
                  Sample.options Sample.with_runtime_and_license)
         [Sample.asset "main.bundle.js"] stats.
Proof.
  destruct (buildPackage_report (env := Sample.emits_runtime_and_license)
              Sample.request Sample.world _ _ _ _
              [Sample.runtime_asset; Sample.asset "main.LICENSE.txt";
               Sample.asset "main.bundle.js"]
              (compiler_yields_sample
                 (Sample.always Sample.with_runtime_and_license))
              eq_refl eq_refl (or_intror eq_refl) eq_refl)
    as (stats & Hs & Hr & _).
  - intros asset [<-|[]]. discriminate.
  - repeat constructor. discriminate.
  - exists stats. split; [exact Hs|exact Hr].
Defined.


(** Witness of X18: a parse error is thrown again. *)
Lemma controller_rethrows_witness :
  fst (buildPackageIgnoringMissingDeps (env := Sample.shebang)
         Sample.request Sample.world)
  = Throw (CLIBuildError
             ["Module parse failed: Unexpected character '#' (1:0)"])
  /\ buildCalls (snd (buildPackageIgnoringMissingDeps (env := Sample.shebang)
                        Sample.request Sample.world))
     = [] ++ [Sample.request].
Proof.
  destruct (controller_rethrows (env := Sample.shebang)
              Sample.request Sample.world
              (snd (buildPackage (env := Sample.shebang)
                      Sample.request Sample.world))
              (CLIBuildError
                 ["Module parse failed: Unexpected character '#' (1:0)"])
              eq_refl)
    as (H1 & H2 & _).
  - intros md. discriminate.
  - split; [exact H1|exact H2].
Defined.
